(** * NIGHTRIDERS front end: coordinate normalisation, markers and pollers

    A shallow embedding of the map pipeline of
    [frontend/src/components/MapView.jsx] (both variants kept in the
    repository), of the ETA poller of [frontend/src/components/EtaView.jsx]
    and of the live-bus poller of [frontend/src/App.js], with the
    properties the specification states about them.

    JavaScript numbers are IEEE-754 binary64 values, modelled by Rocq's
    primitive [float]; payloads are the values [JSON.parse] can build, plus
    [undefined].  Strings are sequences of code units below 256. *)

From Stdlib Require Import ZArith List Bool String Ascii Lia Floats.
Import ListNotations.

Set Warnings "-inexact-float,-register-all".

Local Open Scope Z_scope.

(** ** Completions: a value or a thrown [TypeError] *)

Inductive result (A : Type) : Type :=
| Ok (a : A)
| TypeError.
Arguments Ok {A} a.
Arguments TypeError {A}.

Definition bind {A B : Type} (r : result A) (k : A -> result B) : result B :=
  match r with
  | Ok a => k a
  | TypeError => TypeError
  end.

Notation "'do' x <- r ; k" := (bind r (fun x => k))
  (at level 10, x name, r at level 100, k at level 200).

Fixpoint mapM {A B : Type} (f : A -> result B) (l : list A) : result (list B) :=
  match l with
  | [] => Ok []
  | a :: t => do b <- f a; do bs <- mapM f t; Ok (b :: bs)
  end.

(** ** Numbers *)

Module Num.

Definition nan : float := PrimFloat.nan.
Definition pinf : float := PrimFloat.infinity.
Definition ninf : float := PrimFloat.neg_infinity.

(** [Number.isNaN] *)
Definition isNaN (x : float) : bool := PrimFloat.is_nan x.

(** [Math.abs] *)
Definition abs (x : float) : float := PrimFloat.abs x.

(** The relational operators [<], [>], [<=] on numbers: false as soon as
    an operand is [NaN]. *)
Definition lt (x y : float) : bool := PrimFloat.ltb x y.
Definition gt (x y : float) : bool := PrimFloat.ltb y x.
Definition le (x y : float) : bool := PrimFloat.leb x y.

(** [Number.isFinite] on a number. *)
Definition isFinite (x : float) : bool :=
  negb (PrimFloat.is_nan x) && negb (PrimFloat.is_infinity x).

(** The Number nearest to [n / d] (ties to even, overflow to infinity),
    with the sign [neg]. *)
Definition round_ratio (neg : bool) (n d : positive) : float :=
  let k := Z.max 0 (55 + Z.log2 (Zpos d) - Z.log2 (Zpos n)) in
  let num := Z.shiftl (Zpos n) k in
  let q := num / Zpos d in
  let r := num mod Zpos d in
  let loc := if r =? 0 then loc_Exact else loc_Inexact (2 * r ?= Zpos d) in
  SF2Prim (binary_round_aux prec emax neg q (- k) loc).

(** The Number nearest to [m * 10 ^ e] for [0 <= m], with the sign [neg].
    [top] approximates the decimal order of magnitude ([78913 / 262144]
    is [log10 2]); magnitudes far outside the binary64 range are settled
    without computing the power of ten. *)
Definition of_decimal (neg : bool) (m e : Z) : float :=
  match m with
  | Zpos p =>
      let top := e + Z.log2 m * 78913 / 262144 in
      if 400 <? top then (if neg then ninf else pinf)
      else if top <? -400 then (if neg then PrimFloat.neg_zero else PrimFloat.zero)
      else if 0 <=? e then round_ratio neg (p * Z.to_pos (10 ^ e)) 1
      else round_ratio neg p (Z.to_pos (10 ^ (- e)))
  | _ => if neg then PrimFloat.neg_zero else PrimFloat.zero
  end.

(** The Number nearest to a non-negative integer. *)
Definition of_integer (m : Z) : float :=
  match m with
  | Zpos p => round_ratio false p 1
  | _ => PrimFloat.zero
  end.

End Num.

(** ** Strings: trimming and the string-to-number conversion *)

Module Str.

Definition code (c : ascii) : Z := Z.of_N (N_of_ascii c).

(** White space and line terminators among the code units below 256:
    TAB, LF, VT, FF, CR, SP and NBSP. *)
Definition is_ws (c : ascii) : bool :=
  let n := code c in
  (9 <=? n) && (n <=? 13) || (n =? 32) || (n =? 160).

Fixpoint trimStart (l : list ascii) : list ascii :=
  match l with
  | c :: t => if is_ws c then trimStart t else l
  | [] => []
  end.

Definition trimEnd (l : list ascii) : list ascii :=
  rev (trimStart (rev l)).

(** [String.prototype.trim] *)
Definition trim (s : string) : string :=
  string_of_list_ascii (trimEnd (trimStart (list_ascii_of_string s))).

Definition digit (radix : Z) (c : ascii) : option Z :=
  let n := code c in
  let v := if (48 <=? n) && (n <=? 57) then n - 48
           else if (97 <=? n) && (n <=? 102) then n - 87
           else if (65 <=? n) && (n <=? 70) then n - 55
           else 99 in
  if v <? radix then Some v else None.

(** Longest prefix of digits in [radix]: its value continued from [acc],
    how many digits were read on top of [cnt], and what follows. *)
Fixpoint digits (radix : Z) (l : list ascii) (acc cnt : Z)
  : Z * Z * list ascii :=
  match l with
  | c :: t =>
      match digit radix c with
      | Some v => digits radix t (acc * radix + v) (cnt + 1)
      | None => (acc, cnt, l)
      end
  | [] => (acc, cnt, [])
  end.

Definition is_char (c : ascii) (n : Z) : bool := code c =? n.

(** ExponentPart_opt at the end of a decimal literal: the exponent, or
    [None] when what is left is not an exponent part. *)
Definition exponent (l : list ascii) : option Z :=
  match l with
  | [] => Some 0
  | c :: t =>
      if is_char c 101 || is_char c 69 then
        let '(neg, t') :=
          match t with
          | s :: u => if is_char s 45 then (true, u)
                      else if is_char s 43 then (false, u) else (false, t)
          | [] => (false, t)
          end in
        match digits 10 t' 0 0 with
        | (v, cnt, []) => if 0 <? cnt then Some (if neg then - v else v) else None
        | _ => None
        end
      else None
  end.

(** StrUnsignedDecimalLiteral, with the sign already read. *)
Definition unsignedDecimal (neg : bool) (l : list ascii) : float :=
  if list_eq_dec ascii_dec l (list_ascii_of_string "Infinity")
  then (if neg then Num.ninf else Num.pinf)
  else
    let '(ip, ni, r1) := digits 10 l 0 0 in
    let '(m, nf, r2) :=
      match r1 with
      | c :: t => if is_char c 46 then
                    let '(m, n, r) := digits 10 t ip 0 in (m, n, r)
                  else (ip, 0, r1)
      | [] => (ip, 0, r1)
      end in
    if 0 <? ni + nf then
      match exponent r2 with
      | Some e => Num.of_decimal neg m (e - nf)
      | None => Num.nan
      end
    else Num.nan.

(** NonDecimalIntegerLiteral: [0x], [0o] and [0b] forms, unsigned. *)
Definition nonDecimal (l : list ascii) : option float :=
  match l with
  | z :: p :: t =>
      if is_char z 48 then
        let radix :=
          if is_char p 120 || is_char p 88 then 16
          else if is_char p 111 || is_char p 79 then 8
          else if is_char p 98 || is_char p 66 then 2
          else 0 in
        if radix =? 0 then None
        else match digits radix t 0 0 with
             | (v, cnt, []) =>
                 Some (if 0 <? cnt then Num.of_integer v else Num.nan)
             | _ => Some Num.nan
             end
      else None
  | _ => None
  end.

(** StringToNumber: the empty or blank string is [+0], a numeric literal
    is its rounded value, anything else is [NaN]. *)
Definition toNumber (s : string) : float :=
  let l := trimEnd (trimStart (list_ascii_of_string s)) in
  match l with
  | [] => PrimFloat.zero
  | c :: t =>
      match nonDecimal l with
      | Some x => x
      | None =>
          if is_char c 45 then unsignedDecimal true t
          else if is_char c 43 then unsignedDecimal false t
          else unsignedDecimal false l
      end
  end.

End Str.

Local Open Scope string_scope.

(** ** Values *)

Module JS.

(** What [JSON.parse] builds, and [undefined].  An object keeps its
    properties in insertion order, each key once. *)
Inductive value : Type :=
| Undefined
| Null
| Bool (b : bool)
| Number (x : float)
| String (s : string)
| Array (items : list value)
| Object (props : list (string * value)).

(** ToBoolean *)
Definition truthy (v : value) : bool :=
  match v with
  | Undefined | Null => false
  | Bool b => b
  | Number x => negb (PrimFloat.eqb x PrimFloat.zero || PrimFloat.is_nan x)
  | String s => negb (String.eqb s "")
  | Array _ | Object _ => true
  end.

(** [typeof v === "object"] *)
Definition typeof_object (v : value) : bool :=
  match v with
  | Null | Array _ | Object _ => true
  | _ => false
  end.

(** [typeof v === "string"] *)
Definition typeof_string (v : value) : bool :=
  match v with
  | String _ => true
  | _ => false
  end.

(** [Array.isArray] *)
Definition isArray (v : value) : bool :=
  match v with
  | Array _ => true
  | _ => false
  end.

Definition is_undefined (v : value) : bool :=
  match v with
  | Undefined => true
  | _ => false
  end.

Fixpoint own (props : list (string * value)) (k : string) : option value :=
  match props with
  | [] => None
  | (k', v) :: t => if String.eqb k' k then Some v else own t k
  end.

(** The member access [v.k] for the keys this code reads, none of which
    the built-in prototypes define: an own property of an object,
    [undefined] on anything else, a [TypeError] on [null] and
    [undefined]. *)
Definition get (v : value) (k : string) : result value :=
  match v with
  | Undefined | Null => TypeError
  | Object props =>
      match own props k with
      | Some x => Ok x
      | None => Ok Undefined
      end
  | _ => Ok Undefined
  end.

(** The optional chain [v?.k] *)
Definition get_opt (v : value) (k : string) : value :=
  match get v k with
  | Ok x => x
  | TypeError => Undefined
  end.

(** [a ?? b] *)
Definition coalesce (a b : value) : value :=
  match a with
  | Undefined | Null => b
  | _ => a
  end.

(** Own properties written by an object literal [{...b, k: v}]: [k] keeps
    its place when [b] has it, and comes last otherwise. *)
Fixpoint set (props : list (string * value)) (k : string) (v : value)
  : list (string * value) :=
  match props with
  | [] => [(k, v)]
  | (k', v') :: t =>
      if String.eqb k' k then (k, v) :: t else (k', v') :: set t k v
  end.

(** Whether ToString throws.  A parsed object has no callable own
    property, so one with an own [toString] has no usable conversion
    method left ([Object.prototype.valueOf] returns the object); an array
    converts its elements, skipping [null] and [undefined]. *)
Fixpoint toString_throws (v : value) : bool :=
  match v with
  | Object props =>
      match own props "toString" with
      | Some _ => true
      | None => false
      end
  | Array items =>
      (fix any (l : list value) : bool :=
         match l with
         | [] => false
         | x :: t => toString_throws x || any t
         end) items
  | _ => false
  end.

(** ToNumber.  An object without an own [toString] converts through
    ["[object Object]"] to [NaN].  An array converts through
    [Array.prototype.join]: the empty array gives [""], hence [+0]; two or
    more elements give a string with a comma, hence [NaN]; a single
    element gives that element's string, and a number printed and read
    back is the same number, but for [-0], printed ["0"]. *)
Fixpoint toNumber (v : value) : result float :=
  match v with
  | Undefined => Ok Num.nan
  | Null => Ok PrimFloat.zero
  | Bool b => Ok (if b then PrimFloat.one else PrimFloat.zero)
  | Number x => Ok x
  | String s => Ok (Str.toNumber s)
  | Object props =>
      match own props "toString" with
      | Some _ => TypeError
      | None => Ok Num.nan
      end
  | Array [] => Ok PrimFloat.zero
  | Array [x] =>
      match x with
      | Undefined | Null => Ok PrimFloat.zero
      | Bool _ => Ok Num.nan
      | Number n => Ok (if PrimFloat.eqb n PrimFloat.zero then PrimFloat.zero else n)
      | String s => Ok (Str.toNumber s)
      | Array _ | Object _ => toNumber x
      end
  | Array _ =>
      if toString_throws v then TypeError else Ok Num.nan
  end.

(** Strict equality with a string literal: [v === "k"] *)
Definition strict_eq_string (v : value) (k : string) : bool :=
  match v with
  | String s => String.eqb s k
  | _ => false
  end.

End JS.

Import JS.

(** ** The map view ([MapView.jsx], the variant that sanitises its input) *)

Module MapView.

Record GeoPoint : Type := { lat : float; lng : float }.

(** [raw[k1] ?? raw[k2] ?? ...], evaluated left to right. *)
Fixpoint firstKey (raw : value) (keys : list string) : result value :=
  match keys with
  | [] => Ok Undefined
  | [k] => get raw k
  | k :: rest =>
      do v <- get raw k;
      match v with
      | Undefined | Null => firstKey raw rest
      | _ => Ok v
      end
  end.

Definition rawLat (raw : value) : result value :=
  firstKey raw ["lat"; "lat "; "latitude"; "Latitude"; "Lat"].

Definition rawLng (raw : value) : result value :=
  firstKey raw ["lng"; "lng "; "longitude"; "Longitude"; "Lng"].

(** The guard of the first line: [!raw || typeof raw !== "object"]. *)
Definition rejected (raw : value) : bool :=
  negb (truthy raw) || negb (typeof_object raw).

(** The condition of the nested-object fallback:
    [lat === undefined && lng !== undefined && typeof lng === "object"]. *)
Definition nested (lat lng : value) : bool :=
  is_undefined lat && negb (is_undefined lng) && typeof_object lng.

(** The pair [(lat, lng)] before coercion: the resolved fields, or the
    [lat] and [lng] of the nested object. *)
Definition resolve (raw : value) : result (value * value) :=
  do lat <- rawLat raw;
  do lng <- rawLng raw;
  if nested lat lng
  then do lat' <- get lng "lat"; do lng' <- get lng "lng"; Ok (lat', lng')
  else Ok (lat, lng).

(** [v = typeof v === "string" ? v.trim() : v; v = Number(v)] *)
Definition coerce (v : value) : result float :=
  toNumber (match v with
            | String s => String (Str.trim s)
            | _ => v
            end).

(** From the [NaN] test to the end: one swap when the latitude is out of
    its range and the longitude fits it, then the bounds. *)
Definition validate (lat lng : float) : option GeoPoint :=
  if Num.isNaN lat || Num.isNaN lng then None
  else
    let '(lat, lng) :=
      if Num.gt (Num.abs lat) 90 && Num.le (Num.abs lng) 90
      then (lng, lat) else (lat, lng) in
    if Num.gt (Num.abs lat) 90 || Num.gt (Num.abs lng) 180 then None
    else Some {| lat := lat; lng := lng |}.

Definition normalizePoint (raw : value) : result (option GeoPoint) :=
  if rejected raw then Ok None
  else
    do r <- resolve raw;
    do lat <- coerce (fst r);
    do lng <- coerce (snd r);
    Ok (validate lat lng).

(** [.filter(Boolean)] on the normalised points: [null] goes. *)
Fixpoint filterBoolean {A : Type} (l : list (option A)) : list A :=
  match l with
  | [] => []
  | Some a :: t => a :: filterBoolean t
  | None :: t => filterBoolean t
  end.

(** [Array.prototype.filter] with a callback [(p, i, arr)] that may
    throw. *)
Fixpoint filterFrom {A : Type} (f : A -> nat -> list A -> result bool)
  (arr : list A) (i : nat) (l : list A) : result (list A) :=
  match l with
  | [] => Ok []
  | p :: t =>
      do keep <- f p i arr;
      do rest <- filterFrom f arr (S i) t;
      Ok (if keep then p :: rest else rest)
  end.

Definition filterIndexed {A : Type} (f : A -> nat -> list A -> result bool)
  (arr : list A) : result (list A) :=
  filterFrom f arr 0%nat arr.

(** [Math.abs(prev.lat - p.lat) < 1e-6 && Math.abs(prev.lng - p.lng) < 1e-6] *)
Definition near (prev p : GeoPoint) : bool :=
  Num.lt (Num.abs (lat prev - lat p)) 1e-6
  && Num.lt (Num.abs (lng prev - lng p)) 1e-6.

(** The callback of the second filter; [arr[i - 1]] out of range would be
    [undefined], and reading its [lat] would throw. *)
Definition notDuplicate (p : GeoPoint) (i : nat) (arr : list GeoPoint)
  : result bool :=
  if Nat.eqb i 0 then Ok true
  else match nth_error arr (i - 1) with
       | Some prev => Ok (negb (near prev p))
       | None => TypeError
       end.

(** The chain applied to [route.coordinates]: the [sanitize] of the
    specification. *)
Definition sanitize (coordinates : list value) : result (list GeoPoint) :=
  do normalized <- mapM normalizePoint coordinates;
  filterIndexed notDuplicate (filterBoolean normalized).

Definition routeCoords (route : value) : result (list GeoPoint) :=
  if negb (truthy route) then Ok []
  else
    do c <- get route "coordinates";
    match c with
    | Array coordinates => sanitize coordinates
    | _ => Ok []
    end.

(** [rawRoutes.find((r) => r?.id === routeIdToShow)] on the elements of
    an array: the first match, or [undefined]. *)
Fixpoint find (rawRoutes : list value) (routeIdToShow : string) : value :=
  match rawRoutes with
  | [] => Undefined
  | r :: t =>
      if strict_eq_string (get_opt r "id") routeIdToShow then r
      else find t routeIdToShow
  end.

(** [rawRoutes.find(...) ?? null]; a payload that is not an array has no
    [find] to call. *)
Definition route (rawRoutes : value) (routeIdToShow : string) : result value :=
  match rawRoutes with
  | Array items => Ok (coalesce (find items routeIdToShow) Null)
  | _ => TypeError
  end.

Definition polylinePositions (routeCoords : list GeoPoint) : list (float * float) :=
  map (fun p => (lat p, lng p)) routeCoords.

Definition center (routeCoords : list GeoPoint) : float * float :=
  match routeCoords with
  | p :: _ => (lat p, lng p)
  | [] => (12.8251353, 77.5148474)
  end%float.

Inductive Icon : Type := DEFAULT_ICON | HIGHLIGHT_ICON.

Record Marker : Type :=
  { key : value; position : value * value; icon : Icon }.

(** Own properties copied by the spread [{...b}] of an object; the other
    values that reach a spread have none this code reads. *)
Definition spread (b : value) : list (string * value) :=
  match b with
  | Object props => props
  | _ => []
  end.

(** The callback of the first [map] over the buses. *)
Definition withNumbers (b : value) : result (option value) :=
  do la <- get b "latitude";
  do lat <- toNumber la;
  do lo <- get b "longitude";
  do lng <- toNumber lo;
  if Num.isNaN lat || Num.isNaN lng then Ok None
  else Ok (Some (Object (set (set (spread b) "latitude" (Number lat))
                             "longitude" (Number lng)))).

(** The callback of the second [map]: one [<Marker>] per bus. *)
Definition toMarker (bus : value) : Marker :=
  {| key := get_opt bus "bus_id";
     position := (get_opt bus "latitude", get_opt bus "longitude");
     icon := if strict_eq_string (get_opt bus "bus_id") "V2BMTC"
             then HIGHLIGHT_ICON else DEFAULT_ICON |}.

(** The markers of one render, the [project] of the specification;
    nothing when [rawBuses] is not an array. *)
Definition markers (rawBuses : value) : result (list Marker) :=
  match rawBuses with
  | Array items =>
      do mapped <- mapM withNumbers items;
      Ok (map toMarker (filterBoolean mapped))
  | _ => Ok []
  end.

End MapView.

(** ** The map view without sanitising ([MapView.jsx], second variant) *)

Module MapViewPlain.

(** [routeCoords.length ? [routeCoords[0].lat, routeCoords[0].lng] : [...]]
    on the coordinates as the backend sent them. *)
Definition center (routeCoords : list value) : result (value * value) :=
  match routeCoords with
  | c :: _ =>
      do la <- get c "lat"; do lo <- get c "lng"; Ok (la, lo)
  | [] => Ok (Number 12.8251353, Number 77.5148474)
  end%float.

(** [buses.map((bus) => <Marker .../>)] *)
Definition toMarker (bus : value) : result MapView.Marker :=
  do id <- get bus "bus_id";
  do la <- get bus "latitude";
  do lo <- get bus "longitude";
  Ok {| MapView.key := id;
        MapView.position := (la, lo);
        MapView.icon := if strict_eq_string id "V2BMTC"
                        then MapView.HIGHLIGHT_ICON else MapView.DEFAULT_ICON |}.

Definition markers (buses : list value) : result (list MapView.Marker) :=
  mapM toMarker buses.

End MapViewPlain.

(** ** Requests *)

Module Fetch.

(** A response body: JSON text, given by the value it parses to, or text
    that [JSON.parse] refuses. *)
Inductive body : Type :=
| Json (v : value)
| NotJson.

(** How a request ends: no response at all, or a response with its
    status. *)
Inductive outcome : Type :=
| NetworkError
| Response (status : Z) (b : body).

(** [response.ok]: a status from 200 to 299. *)
Definition ok (o : outcome) : bool :=
  match o with
  | Response status _ => ((200 <=? status) && (status <? 300))%Z
  | NetworkError => false
  end.

(** [fetch(url).then((r) => r.json())]: [fetch] rejects only when there
    is no response, [r.json()] when the body does not parse; the status
    is not looked at.  [None] is a rejected promise. *)
Definition json (o : outcome) : option value :=
  match o with
  | Response _ (Json v) => Some v
  | _ => None
  end.

(** The three ways a request fails: network error, a status outside
    2xx, a body that does not parse. *)
Definition failed (o : outcome) : bool :=
  match o with
  | NetworkError => true
  | Response _ NotJson => true
  | Response _ (Json _) => negb (ok o)
  end.

End Fetch.

(** The two loaders of [MapView]: [.then(setRawBuses)] and
    [.then(setRawRoutes)] after [r.json()], with a [catch] that logs. *)
Module MapViewLoad.

Record state : Type := { rawBuses : value; rawRoutes : value }.

Definition initial : state := {| rawBuses := Array []; rawRoutes := Array [] |}.

Definition loadBuses (s : state) (o : Fetch.outcome) : state :=
  match Fetch.json o with
  | Some data => {| rawBuses := data; rawRoutes := rawRoutes s |}
  | None => s
  end.

Definition loadRoutes (s : state) (o : Fetch.outcome) : state :=
  match Fetch.json o with
  | Some data => {| rawBuses := rawBuses s; rawRoutes := data |}
  | None => s
  end.

End MapViewLoad.

Fixpoint remove_nat (n : nat) (l : list nat) : list nat :=
  match l with
  | [] => []
  | m :: t => if Nat.eqb n m then remove_nat n t else m :: remove_nat n t
  end.

Fixpoint mem_nat (n : nat) (l : list nat) : bool :=
  match l with
  | [] => false
  | m :: t => Nat.eqb n m || mem_nat n t
  end.

(** ** The live-bus poller ([LiveTrackingPage] of [App.js])

    The component as the event loop drives it.  The requests awaited at a
    given moment are named by the order in which they were issued; the
    program itself keeps no such number. *)
Module LiveTrackingPage.

(** How the promise of [axios.get] settles. *)
Inductive settled : Type :=
| Fulfilled (data : value)
| Rejected (error : value).

Record state : Type :=
  { mounted : bool;
    buses : value;                 (* the state of [useState([])] *)
    interval : bool;               (* the timer of [setInterval] is set *)
    pending : list nat;            (* requests awaited *)
    issued : nat;                  (* requests issued so far *)
    setBuses_calls : list value;   (* every call of [setBuses] *)
    console : list value }.        (* what [console.error] received *)

Definition initial : state :=
  {| mounted := false; buses := Array []; interval := false; pending := [];
     issued := 0%nat; setBuses_calls := []; console := [] |}.

(** [fetchBuses()] up to its [await]. *)
Definition fetchBuses (s : state) : state :=
  {| mounted := mounted s; buses := buses s; interval := interval s;
     pending := pending s ++ [issued s]; issued := S (issued s);
     setBuses_calls := setBuses_calls s; console := console s |}.

(** [setBuses(data)]; React drops the update of a component that is no
    longer mounted. *)
Definition setBuses (data : value) (s : state) : state :=
  {| mounted := mounted s;
     buses := if mounted s then data else buses s;
     interval := interval s; pending := pending s; issued := issued s;
     setBuses_calls := setBuses_calls s ++ [data]; console := console s |}.

Definition console_error (e : value) (s : state) : state :=
  {| mounted := mounted s; buses := buses s; interval := interval s;
     pending := pending s; issued := issued s;
     setBuses_calls := setBuses_calls s; console := console s ++ [e] |}.

Definition setInterval (s : state) : state :=
  {| mounted := mounted s; buses := buses s; interval := true;
     pending := pending s; issued := issued s;
     setBuses_calls := setBuses_calls s; console := console s |}.

Definition clearInterval (s : state) : state :=
  {| mounted := mounted s; buses := buses s; interval := false;
     pending := pending s; issued := issued s;
     setBuses_calls := setBuses_calls s; console := console s |}.

Definition settle (n : nat) (s : state) : state :=
  {| mounted := mounted s; buses := buses s; interval := interval s;
     pending := remove_nat n (pending s); issued := issued s;
     setBuses_calls := setBuses_calls s; console := console s |}.

Definition set_mounted (b : bool) (s : state) : state :=
  {| mounted := b; buses := buses s; interval := interval s;
     pending := pending s; issued := issued s;
     setBuses_calls := setBuses_calls s; console := console s |}.

Inductive event : Type :=
| Mount                          (* the effect runs *)
| Tick                           (* the timer fires *)
| Settle (n : nat) (r : settled) (* the awaited promise of request [n] settles *)
| Unmount.                       (* the cleanup of the effect runs *)

Definition step (s : state) (e : event) : state :=
  match e with
  | Mount => setInterval (fetchBuses (set_mounted true s))
  | Tick => if interval s then fetchBuses s else s
  | Settle n r =>
      if mem_nat n (pending s) then
        match r with
        | Fulfilled data => setBuses data (settle n s)
        | Rejected error => console_error error (settle n s)
        end
      else s
  | Unmount => set_mounted false (clearInterval s)
  end.

Definition run (s : state) (es : list event) : state := fold_left step es s.

End LiveTrackingPage.

(** ** The ETA poller ([EtaView.jsx]) *)
Module EtaView.

Record state : Type :=
  { mounted : bool;
    busId : value;                  (* [useParams().busId] of the last render *)
    etaData : value;                (* [useState(null)] *)
    error : value;                  (* [useState(null)] *)
    interval : option value;        (* the timer, with the [busId] its callback closes over *)
    pending : list nat;
    issued : nat;
    setEtaData_calls : list value }.

Definition initial : state :=
  {| mounted := false; busId := Undefined; etaData := Null; error := Null;
     interval := None; pending := []; issued := 0%nat; setEtaData_calls := [] |}.

(** [fetchETA()] of the render with this [busId], up to the request. *)
Definition fetchETA (id : value) (s : state) : state :=
  if negb (truthy id) then s
  else
    {| mounted := mounted s; busId := busId s; etaData := etaData s;
       error := error s; interval := interval s;
       pending := pending s ++ [issued s]; issued := S (issued s);
       setEtaData_calls := setEtaData_calls s |}.

Definition setEtaData (data : value) (s : state) : state :=
  {| mounted := mounted s; busId := busId s;
     etaData := if mounted s then data else etaData s;
     error := error s; interval := interval s; pending := pending s;
     issued := issued s; setEtaData_calls := setEtaData_calls s ++ [data] |}.

Definition setError (e : value) (s : state) : state :=
  {| mounted := mounted s; busId := busId s; etaData := etaData s;
     error := if mounted s then e else error s;
     interval := interval s; pending := pending s; issued := issued s;
     setEtaData_calls := setEtaData_calls s |}.

Definition set_interval (t : option value) (s : state) : state :=
  {| mounted := mounted s; busId := busId s; etaData := etaData s;
     error := error s; interval := t; pending := pending s;
     issued := issued s; setEtaData_calls := setEtaData_calls s |}.

Definition settle (n : nat) (s : state) : state :=
  {| mounted := mounted s; busId := busId s; etaData := etaData s;
     error := error s; interval := interval s;
     pending := remove_nat n (pending s); issued := issued s;
     setEtaData_calls := setEtaData_calls s |}.

Definition render (m : bool) (id : value) (s : state) : state :=
  {| mounted := m; busId := id; etaData := etaData s; error := error s;
     interval := interval s; pending := pending s; issued := issued s;
     setEtaData_calls := setEtaData_calls s |}.

(** The effect of [[busId]]: one request now, then one per period. *)
Definition effect (id : value) (s : state) : state :=
  set_interval (Some id) (fetchETA id s).

(** Its cleanup: [clearInterval(interval)]. *)
Definition cleanup (s : state) : state := set_interval None s.

Inductive event : Type :=
| Mount (id : value)                  (* first render, then the effect *)
| Navigate (id : value)               (* [busId] changes: cleanup, then the effect again *)
| Tick                                (* the timer fires *)
| Settle (n : nat) (o : Fetch.outcome) (* request [n] ends *)
| Unmount.                            (* cleanup *)

Definition step (s : state) (e : event) : state :=
  match e with
  | Mount id => effect id (render true id s)
  | Navigate id => effect id (cleanup (render true id s))
  | Tick =>
      match interval s with
      | Some id => fetchETA id s
      | None => s
      end
  | Settle n o =>
      if mem_nat n (pending s) then
        match Fetch.json o with
        | Some data => setError Null (setEtaData data (settle n s))
        | None => setError (String "Could not fetch ETA") (settle n s)
        end
      else s
  | Unmount => render false (busId s) (cleanup s)
  end.

Definition run (s : state) (es : list event) : state := fold_left step es s.

(** What the component shows. *)
Inductive screen : Type :=
| ErrorMessage (e : value)
| Loading
| Dashboard (data : value).

Definition view (s : state) : screen :=
  if truthy (error s) then ErrorMessage (error s)
  else if negb (truthy (etaData s)) then Loading
  else Dashboard (etaData s).

End EtaView.

(** ** The loader of the plain map view ([MapView.jsx], second variant) *)

Module MapViewPlainLoad.

(** [routes.find((r) => r.id === routeIdToShow)] on the elements of an
    array; reading [id] from [null] throws. *)
Fixpoint find (routes : list value) (routeIdToShow : string) : result value :=
  match routes with
  | [] => Ok Undefined
  | r :: t =>
      do id <- get r "id";
      if strict_eq_string id routeIdToShow then Ok r
      else find t routeIdToShow
  end.

(** The callback of [.then((routes) => ...)]: the new [routeCoords], or
    [None] when [setRouteCoords] is not called. *)
Definition pick (routes : value) (routeIdToShow : string)
  : result (option (list value)) :=
  match routes with
  | Array items =>
      do r <- find items routeIdToShow;
      if truthy r then
        do c <- get r "coordinates";
        match c with
        | Array coordinates => Ok (Some coordinates)
        | _ => Ok None
        end
      else Ok None
  | _ => TypeError
  end.

(** The whole chain, with its [.catch(console.error)]: [routeCoords]
    after the request has ended. *)
Definition loadRoutes (routeCoords : list value) (o : Fetch.outcome)
  (routeIdToShow : string) : list value :=
  match Fetch.json o with
  | Some routes =>
      match pick routes routeIdToShow with
      | Ok (Some coordinates) => coordinates
      | Ok None => routeCoords
      | TypeError => routeCoords
      end
  | None => routeCoords
  end.

End MapViewPlainLoad.

(** ** The route search ([RoutesPage] of [App.js]) *)

Module RoutesPage.

(** [String.prototype.toLowerCase] on code units below 256: the letters
    A to Z, and the accented capitals from U+00C0 to U+00DE but for the
    multiplication sign. *)
Definition lowerChar (c : ascii) : ascii :=
  let n := Str.code c in
  if ((65 <=? n) && (n <=? 90)
      || (192 <=? n) && (n <=? 222) && negb (n =? 215))%Z
  then ascii_of_N (Z.to_N (n + 32))
  else c.

Definition toLowerCase (s : list ascii) : list ascii := map lowerChar s.

Fixpoint startsWith (s q : list ascii) : bool :=
  match q, s with
  | [], _ => true
  | c :: q', d :: s' => Ascii.eqb c d && startsWith s' q'
  | _ :: _, [] => false
  end.

(** [String.prototype.includes] *)
Fixpoint includes (s q : list ascii) : bool :=
  startsWith s q
  || match s with
     | [] => false
     | _ :: t => includes t q
     end.

(** [v.toLowerCase()]: only a string has the method. *)
Definition lowered (v : value) : result (list ascii) :=
  match v with
  | String s => Ok (toLowerCase (list_ascii_of_string s))
  | _ => TypeError
  end.

(** The callback of [routes.filter]; [||] does not evaluate its right
    operand when the left one holds. *)
Definition matches (searchQuery : string) (route : value) : result bool :=
  let q := toLowerCase (list_ascii_of_string searchQuery) in
  do number <- get route "route_number";
  do a <- lowered number;
  if includes a q then Ok true
  else
    do name <- get route "route_name";
    do b <- lowered name;
    Ok (includes b q).



End RoutesPage.

(** ** The stops of the route form ([AdminRoutesPage] of [App.js]) *)

Module AdminRoutesPage.

(** [s.split(',')]: the pieces between the commas, [cur] being the piece
    under way, last character first. *)
Fixpoint splitFrom (cur : list ascii) (l : list ascii) : list (list ascii) :=
  match l with
  | [] => [rev cur]
  | c :: t =>
      if Str.is_char c 44 then rev cur :: splitFrom [] t
      else splitFrom (c :: cur) t
  end.

Definition split (s : string) : list string :=
  map string_of_list_ascii (splitFrom [] (list_ascii_of_string s)).

(** [.filter(s => s)] on strings: the empty string goes. *)
Definition nonEmpty (s : string) : bool := truthy (String s).

(** [handleSubmit]: the stops sent with the form,
    [formData.stops.split(',').map(s => s.trim()).filter(s => s)]. *)
Definition submittedStops (stops : string) : list string :=
  filter nonEmpty (map Str.trim (split stops)).

(** [handleEdit]: the text put in the form, [route.stops.join(', ')], for
    stops that are strings. *)
Fixpoint join (stops : list string) : string :=
  match stops with
  | [] => ""
  | [s] => s
  | s :: t => s ++ ", " ++ join t
  end.

End AdminRoutesPage.

(** ** Vocabulary of the properties *)

Import MapView.

(** A string of white space only (the empty string is one). *)
Definition blank (s : string) : bool :=
  forallb Str.is_ws (list_ascii_of_string s).

(** The nested value is an object or an array, not [null]. *)
Definition is_container (v : value) : bool :=
  match v with
  | Object _ | Array _ => true
  | _ => false
  end.

(** What C9 says [normalizePoint] returns once the longitude field has
    resolved to the object [o]: the result of coercing and validating
    [o.lat] and [o.lng]. *)
Definition fromNested (o : value) : result (option GeoPoint) :=
  do x <- coerce (get_opt o "lat");
  do y <- coerce (get_opt o "lng");
  Ok (validate x y).

(** The elements of [l] whose flag in [keep] is set, in order. *)
Fixpoint select {A : Type} (keep : list bool) (l : list A) : list A :=
  match keep, l with
  | b :: k, a :: t => if b then a :: select k t else select k t
  | _, _ => []
  end.

(** The deduplication in the words of the specification: each point is
    compared with the last point kept. *)
Fixpoint dropNearKept (kept : GeoPoint) (l : list GeoPoint) : list GeoPoint :=
  match l with
  | [] => []
  | p :: t => if near kept p then dropNearKept kept t
              else p :: dropNearKept p t
  end.

Definition dedupAgainstKept (l : list GeoPoint) : list GeoPoint :=
  match l with
  | [] => []
  | p :: t => p :: dropNearKept p t
  end.

(** What the second filter answers at index [i] of [arr]. *)
Definition keptAt (arr : list GeoPoint) (i : nat) : bool :=
  Nat.eqb i 0
  || match nth_error arr (i - 1), nth_error arr i with
     | Some prev, Some p => negb (near prev p)
     | _, _ => false
     end.

(** A raw coordinate [{lat: a, lng: b}]. *)
Definition rawPoint (a b : float) : value :=
  Object [("lat", Number a); ("lng", Number b)].

Definition revisiting : list value :=
  [rawPoint 1 1; rawPoint 1.0000001 1.0000001; rawPoint 2 2; rawPoint 1 1].

Definition drifting : list value :=
  [rawPoint 0 0; rawPoint 0.0000009 0.0000009; rawPoint (-0.0000005) (-0.0000005)].

(** The two numbers a bus record coerces to. *)
Definition coordinates (b : value) : result (float * float) :=
  do la <- get b "latitude";
  do x <- toNumber la;
  do lo <- get b "longitude";
  do y <- toNumber lo;
  Ok (x, y).

(** Neither of the two is [NaN]. *)
Definition rendered (b : value) : bool :=
  match coordinates b with
  | Ok (x, y) => negb (Num.isNaN x || Num.isNaN y)
  | TypeError => false
  end.

Definition distinguished (b : value) : bool :=
  strict_eq_string (get_opt b "bus_id") "V2BMTC".

Definition highlighted (m : Marker) : bool :=
  match icon m with
  | HIGHLIGHT_ICON => true
  | DEFAULT_ICON => false
  end.

(** How a marker stands for a bus record. *)
Definition marks (b : value) (m : Marker) : Prop :=
  exists x y : float,
    coordinates b = Ok (x, y)
    /\ position m = (Number x, Number y)
    /\ key m = get_opt b "bus_id"
    /\ highlighted m = distinguished b.

Definition specExample : list value :=
  [ Object [("bus_id", String "V2BMTC"); ("latitude", String "12.1");
            ("longitude", String "77.2")];
    Object [("bus_id", String "X"); ("latitude", String "bad");
            ("longitude", String "1")] ].

Definition staleBuses : value :=
  Array [ Object [("bus_id", String "V2BMTC"); ("latitude", Number 12.1);
                  ("longitude", Number 77.2)] ].

Definition freshBuses : value :=
  Array [ Object [("bus_id", String "V2BMTC"); ("latitude", Number 12.3);
                  ("longitude", Number 77.4)] ].

Definition notFound : value := Object [("detail", String "Not Found")].

Definition etaPayload : value :=
  Object [("current_speed_kmph", Number 32.5); ("eta", Array [])].

(** The events that can follow the cleanup of the bus page. *)
Definition after_unmount (ev : LiveTrackingPage.event) : bool :=
  match ev with
  | LiveTrackingPage.Tick | LiveTrackingPage.Settle _ _ => true
  | LiveTrackingPage.Mount | LiveTrackingPage.Unmount => false
  end.

(** The aliases of the two fields, in the order [normalizePoint] tries
    them. *)
Definition latKeys : list string := ["lat"; "lat "; "latitude"; "Latitude"; "Lat"].
Definition lngKeys : list string := ["lng"; "lng "; "longitude"; "Longitude"; "Lng"].

(** [null] or [undefined], what [??] skips. *)
Definition nullish (v : value) : bool :=
  match v with
  | Undefined | Null => true
  | _ => false
  end.

(** A plain object, not an array. *)
Definition is_record (v : value) : bool :=
  match v with
  | Object _ => true
  | _ => false
  end.

(** A boolean, a number or a string. *)
Definition flat (v : value) : bool :=
  match v with
  | Bool _ | Number _ | String _ => true
  | _ => false
  end.

(** The invariant of a validated point: no [NaN], latitude within 90 and
    longitude within 180 in absolute value. *)
Definition in_bounds (p : GeoPoint) : Prop :=
  Num.isNaN (lat p) = false /\ Num.isNaN (lng p) = false
  /\ Num.le (Num.abs (lat p)) 90 = true
  /\ Num.le (Num.abs (lng p)) 180 = true.

(** [l] with some elements left out, the others in their order. *)
Inductive subseq {A : Type} : list A -> list A -> Prop :=
| subseq_nil : subseq [] []
| subseq_skip (a : A) (l m : list A) : subseq l m -> subseq l (a :: m)
| subseq_keep (a : A) (l m : list A) : subseq l m -> subseq (a :: l) (a :: m).

(** A validated point written back as a raw coordinate. *)
Definition toRaw (p : GeoPoint) : value := rawPoint (lat p) (lng p).

(** No point of the list is within epsilon of the one before it. *)
Fixpoint spaced (l : list GeoPoint) : bool :=
  match l with
  | p :: (q :: _) as t => negb (near p q) && spaced t
  | _ => true
  end.

(** A bus record whose two coordinates are numbers, neither of them
    [NaN]. *)
Definition wellFormedBus (b : value) : bool :=
  match b with
  | Object props =>
      match own props "latitude", own props "longitude" with
      | Some (Number x), Some (Number y) =>
          negb (Num.isNaN x) && negb (Num.isNaN y)
      | _, _ => false
      end
  | _ => false
  end.

(** The events of the ETA page that leave [busId] as it is. *)
Definition keeps_busId (ev : EtaView.event) : bool :=
  match ev with
  | EtaView.Tick | EtaView.Settle _ _ | EtaView.Unmount => true
  | EtaView.Mount _ | EtaView.Navigate _ => false
  end.


Definition commaFree (l : list ascii) : bool :=
  forallb (fun c => negb (Str.is_char c 44)) l.

(** A stop name as the form keeps it: not empty, without a comma,
    without white space at either end. *)
Definition cleanStop (s : string) : bool :=
  AdminRoutesPage.nonEmpty s
  && commaFree (list_ascii_of_string s)
  && String.eqb (Str.trim s) s.

(** A boolean, a number, a string or [null]. *)
Definition flatOrNull (v : value) : bool :=
  match v with
  | Null => true
  | _ => flat v
  end.

(** * Properties *)

Local Open Scope float_scope.

(** ** Facts on numbers *)

Section NumberFacts.

Lemma SFcompare_swap (a b : spec_float) :
  SFcompare b a = option_map CompOpp (SFcompare a b).
Proof.
  destruct a as [sa | sa | | sa ma ea], b as [sb | sb | | sb mb eb];
    cbn; try reflexivity;
    try (destruct sa; reflexivity); try (destruct sb; reflexivity);
    try (destruct sa, sb; reflexivity).
  pose proof (Pos.compare_cont_antisym ma mb Eq) as Hm. cbn in Hm.
  destruct sa, sb; cbn; try reflexivity;
    rewrite (Z.compare_antisym ea eb);
    destruct (ea ?= eb)%Z; cbn; try reflexivity;
    rewrite <- Hm; destruct (Pos.compare_cont Eq ma mb); reflexivity.
Qed.

Lemma not_nan_spec (x : float) :
  Num.isNaN x = false -> Prim2SF x <> S754_nan.
Proof.
  unfold Num.isNaN, is_nan. rewrite eqb_spec. intros H E.
  rewrite E in H. discriminate H.
Qed.

Lemma abs_not_nan (x : float) :
  Num.isNaN x = false -> Prim2SF (Num.abs x) <> S754_nan.
Proof.
  intros H. apply not_nan_spec in H. unfold Num.abs. rewrite abs_spec.
  destruct (Prim2SF x); cbn; congruence.
Qed.

(** On numbers that are not [NaN], [a > b] is the negation of [a <= b]. *)
Lemma gt_is_not_le (a b : float) :
  Prim2SF a <> S754_nan -> Prim2SF b <> S754_nan ->
  Num.gt a b = negb (Num.le a b).
Proof.
  intros Ha Hb. unfold Num.gt, Num.le. rewrite ltb_spec, leb_spec.
  unfold SFltb, SFleb. rewrite (SFcompare_swap (Prim2SF a) (Prim2SF b)).
  destruct (SFcompare (Prim2SF a) (Prim2SF b)) as [[ | | ] | ] eqn:E;
    cbn; try reflexivity.
  exfalso.
  destruct (Prim2SF a) as [sa | sa | | sa ma ea];
    destruct (Prim2SF b) as [sb | sb | | sb mb eb];
    cbn in E; try discriminate E; congruence.
Qed.

Lemma gt_abs_is_not_le (x c : float) :
  Num.isNaN x = false -> Prim2SF c <> S754_nan ->
  Num.gt (Num.abs x) c = negb (Num.le (Num.abs x) c).
Proof.
  intros Hx Hc. apply gt_is_not_le; [apply abs_not_nan, Hx | exact Hc].
Qed.

Lemma not_nan_90 : Prim2SF 90 <> S754_nan.
Proof. vm_compute. discriminate. Qed.

Lemma not_nan_180 : Prim2SF 180 <> S754_nan.
Proof. vm_compute. discriminate. Qed.

End NumberFacts.

(** ** Facts on strings *)

Section StringFacts.

Lemma trimStart_blank (l : list ascii) :
  forallb Str.is_ws l = true -> Str.trimStart l = [].
Proof.
  induction l as [ | c t IH]; cbn; [reflexivity | ].
  intros H. apply andb_true_iff in H. destruct H as [Hc Ht].
  rewrite Hc. exact (IH Ht).
Qed.

Lemma trim_blank (s : string) : blank s = true -> Str.trim s = "".
Proof.
  unfold blank, Str.trim. intros H.
  rewrite (trimStart_blank _ H). reflexivity.
Qed.

End StringFacts.

(** ** The point normaliser *)

Section NormalizePoint.

Lemma normalizePoint_steps (raw lat lng : value) (x y : float) :
  rejected raw = false ->
  resolve raw = Ok (lat, lng) ->
  coerce lat = Ok x ->
  coerce lng = Ok y ->
  normalizePoint raw = Ok (validate x y).
Proof.
  intros Hg Hr Hx Hy. unfold normalizePoint.
  rewrite Hg, Hr. unfold bind. cbn [fst snd]. rewrite Hx, Hy. reflexivity.
Qed.

Lemma resolve_plain (raw lat lng : value) :
  rawLat raw = Ok lat -> rawLng raw = Ok lng -> nested lat lng = false ->
  resolve raw = Ok (lat, lng).
Proof.
  intros Hla Hlo Hn. unfold resolve. rewrite Hla, Hlo. cbn.
  rewrite Hn. reflexivity.
Qed.

(** C2.  When the two resolved values coerce to numbers [x] (latitude)
    and [y] (longitude), neither of them [NaN], with [|x| > 90] and
    [|y| <= 90], [normalizePoint] swaps them once: it returns the point
    of latitude [y] and longitude [x] when [|y| <= 90] and [|x| <= 180],
    and [null] otherwise. *)
Theorem normalizePoint_swaps_once (raw vlat vlng : value) (x y : float) :
  rejected raw = false ->
  resolve raw = Ok (vlat, vlng) ->
  coerce vlat = Ok x ->
  coerce vlng = Ok y ->
  Num.isNaN x = false ->
  Num.isNaN y = false ->
  Num.gt (Num.abs x) 90 = true ->
  Num.le (Num.abs y) 90 = true ->
  normalizePoint raw =
    Ok (if Num.le (Num.abs y) 90 && Num.le (Num.abs x) 180
        then Some {| lat := y; lng := x |} else None).
Proof.
  intros Hg Hr Hx Hy Nx Ny Hout Hin.
  rewrite (normalizePoint_steps raw vlat vlng x y Hg Hr Hx Hy).
  unfold validate. rewrite Nx, Ny, Hout, Hin. cbn [orb andb].
  rewrite (gt_abs_is_not_le y 90 Ny not_nan_90), Hin.
  rewrite (gt_abs_is_not_le x 180 Nx not_nan_180).
  destruct (Num.le (Num.abs x) 180); reflexivity.
Qed.

Lemma normalizePoint_swaps_once_witness :
  normalizePoint (Object [("lat", Number 120); ("lng", String " 45 ")]) =
    Ok (Some {| lat := 45; lng := 120 |}).
Proof.
  apply (normalizePoint_swaps_once
           (Object [("lat", Number 120); ("lng", String " 45 ")])
           (Number 120) (String " 45 ") 120 45);
    vm_compute; reflexivity.
Defined.

(** The key variants resolve to the same point. *)
Example normalizePoint_key_variants :
  normalizePoint (Object [("lat ", String " 12.5"); ("Longitude", Number 77.25)])
  = Ok (Some {| lat := 12.5; lng := 77.25 |})
  /\ normalizePoint (Object [("Latitude", Number 12.5); ("lng ", String "77.25 ")])
     = Ok (Some {| lat := 12.5; lng := 77.25 |})
  /\ normalizePoint (String "12.5,77.25") = Ok None
  /\ normalizePoint Null = Ok None.
Proof. repeat split; vm_compute; reflexivity. Qed.

(** A swapped pair that still breaks the bounds is rejected. *)
Example normalizePoint_swap_out_of_bounds :
  normalizePoint (Object [("latitude", Number 200); ("longitude", Number 45)])
  = Ok None.
Proof. vm_compute. reflexivity. Qed.

(** C10.  When the latitude and the longitude fields both resolve to
    strings that are empty or hold white space only, [normalizePoint]
    returns the point [{lat: 0, lng: 0}], not [null]. *)
Theorem normalizePoint_blank_strings (raw : value) (s1 s2 : string) :
  rejected raw = false ->
  rawLat raw = Ok (String s1) ->
  rawLng raw = Ok (String s2) ->
  blank s1 = true ->
  blank s2 = true ->
  normalizePoint raw = Ok (Some {| lat := 0; lng := 0 |}).
Proof.
  intros Hg Hla Hlo B1 B2.
  rewrite (normalizePoint_steps raw (String s1) (String s2) 0 0 Hg).
  - vm_compute. reflexivity.
  - apply resolve_plain; [exact Hla | exact Hlo | reflexivity].
  - unfold coerce. rewrite (trim_blank s1 B1). vm_compute. reflexivity.
  - unfold coerce. rewrite (trim_blank s2 B2). vm_compute. reflexivity.
Qed.

Lemma normalizePoint_blank_strings_witness :
  normalizePoint (Object [("lat", String ""); ("lng", String " ")])
  = Ok (Some {| lat := 0; lng := 0 |}).
Proof.
  apply (normalizePoint_blank_strings
           (Object [("lat", String ""); ("lng", String " ")]) "" " ");
    vm_compute; reflexivity.
Defined.

(** C9, as stated, fails: with a latitude present next to a longitude
    that is an object, the object is not entered and the record is
    rejected, although the object holds a valid point. *)
Lemma nested_object_ignored_when_latitude_present :
  let o := Object [("lat", Number 1); ("lng", Number 2)] in
  let raw := Object [("lat", Number 10); ("lng", o)] in
  rawLng raw = Ok o
  /\ fromNested o = Ok (Some {| lat := 1; lng := 2 |})
  /\ normalizePoint raw = Ok None
  /\ normalizePoint raw <> fromNested o.
Proof.
  cbv zeta. repeat split; try (vm_compute; reflexivity).
  vm_compute. discriminate.
Qed.

(** C9, amended.  When the latitude field resolves to [undefined] and
    the longitude field resolves to an object (or an array),
    [normalizePoint] reads the [lat] and [lng] of that object and puts
    them through the coercion, the swap and the bounds check. *)
Theorem normalizePoint_nested_when_latitude_missing (raw o : value) :
  rejected raw = false ->
  rawLat raw = Ok Undefined ->
  rawLng raw = Ok o ->
  is_container o = true ->
  normalizePoint raw = fromNested o.
Proof.
  intros Hg Hla Hlo Ho. unfold normalizePoint, fromNested, resolve.
  rewrite Hg, Hla, Hlo. cbn.
  destruct o as [ | | b | n | s | items | props]; try discriminate Ho.
  - reflexivity.
  - unfold get_opt, get. destruct (own props "lat"), (own props "lng");
      reflexivity.
Qed.

Lemma normalizePoint_nested_when_latitude_missing_witness :
  normalizePoint
    (Object [("lng", Object [("lat", String "12.9"); ("lng", Number 77.5)])])
  = Ok (Some {| lat := 12.9; lng := 77.5 |}).
Proof.
  etransitivity.
  - apply (normalizePoint_nested_when_latitude_missing
             (Object [("lng", Object [("lat", String "12.9"); ("lng", Number 77.5)])])
             (Object [("lat", String "12.9"); ("lng", Number 77.5)]));
      vm_compute; reflexivity.
  - vm_compute. reflexivity.
Defined.

(** The fallback is entered for [null] too, where reading [lat]
    throws. *)
Example normalizePoint_null_longitude :
  normalizePoint (Object [("Lng", Null)]) = TypeError.
Proof. vm_compute. reflexivity. Qed.

End NormalizePoint.

(** ** The route sanitiser *)

Section Sanitize.

Lemma skipn_cons_inv {A : Type} (arr : list A) :
  forall (i : nat) (p : A) (t : list A),
    skipn i arr = p :: t ->
    nth_error arr i = Some p /\ skipn (S i) arr = t.
Proof.
  induction arr as [ | a arr IH]; intros i p t H.
  - destruct i; discriminate H.
  - destruct i as [ | i].
    + cbn in H. injection H as -> ->. split; reflexivity.
    + cbn in H. apply IH in H. exact H.
Qed.

(** The second filter never reads before the start of the array: it
    returns, and keeps what [keptAt] says. *)
Lemma filterFrom_notDuplicate (arr : list GeoPoint) :
  forall (l : list GeoPoint) (i : nat),
    skipn i arr = l ->
    filterFrom notDuplicate arr i l
    = Ok (select (map (keptAt arr) (seq i (List.length l))) l).
Proof.
  induction l as [ | p t IH]; intros i H; [reflexivity | ].
  destruct (skipn_cons_inv arr i p t H) as [Hp Ht].
  cbn [filterFrom List.length seq map select].
  rewrite (IH (S i) Ht). unfold notDuplicate, keptAt. rewrite Hp.
  destruct i as [ | i]; [reflexivity | ].
  cbn [Nat.eqb orb]. replace (S i - 1)%nat with i by lia.
  destruct (nth_error arr i) as [prev | ] eqn:Hprev.
  - cbn. destruct (near prev p); reflexivity.
  - apply nth_error_None in Hprev.
    assert (S i < List.length arr)%nat
      by (apply nth_error_Some; rewrite Hp; discriminate).
    lia.
Qed.

Lemma nth_map_seq (f : nat -> bool) (n i : nat) :
  (i < n)%nat -> nth i (map f (seq 0 n)) false = f i.
Proof.
  intros H.
  rewrite (nth_indep _ false (f 0%nat)) by (rewrite length_map, length_seq; exact H).
  rewrite (map_nth f (seq 0 n) 0%nat i), seq_nth by exact H. reflexivity.
Qed.

(** C1, amended.  When no coordinate makes [normalizePoint] throw, the
    polyline is the list [arr] of normalised points without those that
    the filter drops, and the point at index [i] is dropped exactly when
    it is not the first and both its latitude and longitude deltas to
    the normalised point just before it in [arr], kept or not, are
    below [1e-6]. *)
Theorem sanitize_drops_points_near_their_predecessor
  (coordinates : list value) (normalized : list (option GeoPoint)) :
  mapM normalizePoint coordinates = Ok normalized ->
  exists keep : list bool,
    List.length keep = List.length (filterBoolean normalized)
    /\ sanitize coordinates = Ok (select keep (filterBoolean normalized))
    /\ forall (i : nat) (p : GeoPoint),
         nth_error (filterBoolean normalized) i = Some p ->
         (nth i keep false = false <->
          exists prev : GeoPoint,
            i <> 0%nat
            /\ nth_error (filterBoolean normalized) (i - 1) = Some prev
            /\ Num.lt (Num.abs (lat prev - lat p)) 1e-6 = true
            /\ Num.lt (Num.abs (lng prev - lng p)) 1e-6 = true).
Proof.
  intros Hn. set (arr := filterBoolean normalized).
  exists (map (keptAt arr) (seq 0 (List.length arr))). split; [ | split].
  - rewrite length_map, length_seq. reflexivity.
  - unfold sanitize. rewrite Hn. cbn [bind]. fold arr.
    exact (filterFrom_notDuplicate arr arr 0%nat eq_refl).
  - intros i p Hp.
    assert (Hi : (i < List.length arr)%nat)
      by (apply nth_error_Some; rewrite Hp; discriminate).
    rewrite (nth_map_seq (keptAt arr) (List.length arr) i Hi).
    unfold keptAt. rewrite Hp. split.
    + intros H. apply orb_false_iff in H. destruct H as [H0 H1].
      apply Nat.eqb_neq in H0.
      destruct (nth_error arr (i - 1)) as [prev | ] eqn:Hprev.
      * exists prev. apply negb_false_iff in H1. unfold near in H1.
        apply andb_true_iff in H1. destruct H1 as [Ha Hb].
        repeat split; assumption.
      * apply nth_error_None in Hprev. lia.
    + intros [prev [H0 [Hprev [Ha Hb]]]].
      apply Nat.eqb_neq in H0. rewrite H0, Hprev. unfold near.
      rewrite Ha, Hb. reflexivity.
Qed.

Lemma sanitize_drops_points_near_their_predecessor_witness :
  exists keep : list bool,
    List.length keep = 4%nat
    /\ sanitize revisiting
       = Ok (select keep
               [ {| lat := 1; lng := 1 |};
                 {| lat := 1.0000001; lng := 1.0000001 |};
                 {| lat := 2; lng := 2 |}; {| lat := 1; lng := 1 |} ])
    /\ forall (i : nat) (p : GeoPoint),
         nth_error
           [ {| lat := 1; lng := 1 |};
             {| lat := 1.0000001; lng := 1.0000001 |};
             {| lat := 2; lng := 2 |}; {| lat := 1; lng := 1 |} ] i = Some p ->
         (nth i keep false = false <->
          exists prev : GeoPoint,
            i <> 0%nat
            /\ nth_error
                 [ {| lat := 1; lng := 1 |};
                   {| lat := 1.0000001; lng := 1.0000001 |};
                   {| lat := 2; lng := 2 |}; {| lat := 1; lng := 1 |} ] (i - 1)
               = Some prev
            /\ Num.lt (Num.abs (lat prev - lat p)) 1e-6 = true
            /\ Num.lt (Num.abs (lng prev - lng p)) 1e-6 = true).
Proof.
  exact (sanitize_drops_points_near_their_predecessor revisiting
           [ Some {| lat := 1; lng := 1 |};
             Some {| lat := 1.0000001; lng := 1.0000001 |};
             Some {| lat := 2; lng := 2 |}; Some {| lat := 1; lng := 1 |} ]
           eq_refl).
Defined.

(** The example of the specification: the near-duplicate goes, the
    return to the origin stays. *)
Example sanitize_revisiting :
  sanitize revisiting
  = Ok [ {| lat := 1; lng := 1 |}; {| lat := 2; lng := 2 |};
         {| lat := 1; lng := 1 |} ].
Proof. vm_compute. reflexivity. Qed.

(** The route is looked up by its [id]; a missing route, or one without
    an array of coordinates, gives the empty polyline. *)
Example routeCoords_of_selected_route :
  (do r <- route (Array [ Object [("id", String "r1"); ("coordinates", Null)];
                          Object [("id", String "r2");
                                  ("coordinates", Array revisiting)] ]) "r2";
   routeCoords r)
  = Ok [ {| lat := 1; lng := 1 |}; {| lat := 2; lng := 2 |};
         {| lat := 1; lng := 1 |} ].
Proof. vm_compute. reflexivity. Qed.

Example routeCoords_without_route :
  (do r <- route (Array [Object [("id", String "r1"); ("coordinates", Null)]]) "r2";
   routeCoords r) = Ok []
  /\ routeCoords (Object [("id", String "r1"); ("coordinates", Null)]) = Ok [].
Proof. split; reflexivity. Qed.

Example sanitize_empty : sanitize [] = Ok [].
Proof. reflexivity. Qed.

Example sanitize_skips_invalid :
  sanitize [rawPoint 1 1; String "x"; rawPoint 500 500; rawPoint 2 2]
  = Ok [ {| lat := 1; lng := 1 |}; {| lat := 2; lng := 2 |} ].
Proof. vm_compute. reflexivity. Qed.

(** C1, as stated, fails.  The second point is within [1e-6] of the
    first and is dropped; the third is compared with the dropped one,
    not with the last kept one, and stays although both its deltas to
    the first point are below [1e-6]: the polyline has two consecutive
    points within epsilon, where the deduplication against the last
    kept point leaves one. *)
Lemma sanitize_keeps_point_near_last_kept :
  let a := {| lat := 0; lng := 0 |} in
  let b := {| lat := 0.0000009; lng := 0.0000009 |} in
  let c := {| lat := -0.0000005; lng := -0.0000005 |} in
  mapM normalizePoint drifting = Ok [Some a; Some b; Some c]
  /\ sanitize drifting = Ok [a; c]
  /\ near a c = true
  /\ dedupAgainstKept [a; b; c] = [a].
Proof. cbv zeta. repeat split; vm_compute; reflexivity. Qed.

End Sanitize.

(** ** The viewport centre *)

Section Center.

(** C8.  The centre of the empty polyline is the fixed anchor
    [(12.8251353, 77.5148474)], and the centre of a polyline with at least
    one point is its first point; the same holds in the variant that
    reads the coordinates as objects [{lat, lng}]. *)
Theorem center_is_first_point_or_anchor :
  MapView.center [] = (12.8251353, 77.5148474)
  /\ (forall (p : MapView.GeoPoint) (rest : list MapView.GeoPoint),
        MapView.center (p :: rest) = (MapView.lat p, MapView.lng p))
  /\ MapViewPlain.center [] = Ok (Number 12.8251353, Number 77.5148474)
  /\ (forall (a b : float) (rest : list value),
        MapViewPlain.center (rawPoint a b :: rest) = Ok (Number a, Number b)).
Proof. repeat split. Qed.

Example center_of_route :
  MapView.center [ {| MapView.lat := 12.0; MapView.lng := 77.0 |};
                   {| MapView.lat := 13.5; MapView.lng := 78.25 |} ]
  = (12.0, 77.0).
Proof. reflexivity. Qed.

End Center.

(** ** The bus markers *)

Section Markers.

Lemma own_set_same (props : list (string * value)) (k : string) (v : value) :
  own (set props k v) k = Some v.
Proof.
  induction props as [ | [k' v'] t IH]; cbn.
  - rewrite String.eqb_refl. reflexivity.
  - destruct (String.eqb k' k) eqn:E; cbn.
    + rewrite String.eqb_refl. reflexivity.
    + rewrite E. exact IH.
Qed.

Lemma own_set_other (props : list (string * value)) (k k' : string) (v : value) :
  String.eqb k k' = false ->
  own (set props k v) k' = own props k'.
Proof.
  intros Hk. induction props as [ | [k0 v0] t IH]; cbn.
  - rewrite Hk. reflexivity.
  - destruct (String.eqb k0 k) eqn:E; cbn.
    + apply String.eqb_eq in E. subst k0. rewrite Hk. reflexivity.
    + rewrite IH. reflexivity.
Qed.

(** The first callback on one record: it throws when reading the
    coordinates does, drops the record on a [NaN], and otherwise hands
    on an object that the second callback turns into the record's
    marker. *)
Lemma withNumbers_spec (b : value) (r : option value) :
  withNumbers b = Ok r ->
  exists x y : float,
    coordinates b = Ok (x, y)
    /\ match r with
       | Some bus => rendered b = true /\ marks b (toMarker bus)
       | None => rendered b = false
       end.
Proof.
  unfold withNumbers.
  destruct (get b "latitude") as [la | ] eqn:Hla; [ | discriminate].
  cbn [bind].
  destruct (toNumber la) as [x | ] eqn:Hx; [ | discriminate]. cbn [bind].
  destruct (get b "longitude") as [lo | ] eqn:Hlo; [ | discriminate].
  cbn [bind].
  destruct (toNumber lo) as [y | ] eqn:Hy; [ | discriminate]. cbn [bind].
  intros H.
  assert (Hc : coordinates b = Ok (x, y)).
  { unfold coordinates. rewrite Hla. cbn [bind]. rewrite Hx. cbn [bind].
    rewrite Hlo. cbn [bind]. rewrite Hy. reflexivity. }
  assert (Hr : rendered b = negb (Num.isNaN x || Num.isNaN y))
    by (unfold rendered; rewrite Hc; reflexivity).
  exists x, y. split; [exact Hc | ].
  destruct (Num.isNaN x || Num.isNaN y) eqn:Hnan; injection H as <-;
    [exact Hr | split; [exact Hr | ] ].
  exists x, y. split; [exact Hc | ].
  unfold toMarker, highlighted, distinguished, get_opt, get.
  cbn [key position icon].
  rewrite (own_set_other _ "longitude" "latitude") by reflexivity.
  rewrite (own_set_other _ "longitude" "bus_id") by reflexivity.
  rewrite (own_set_other _ "latitude" "bus_id") by reflexivity.
  rewrite !own_set_same.
  destruct b as [ | | t | n | s | items | props];
    try discriminate Hla; cbn in Hla, Hx;
    try (injection Hla as <-; cbn in Hx; injection Hx as <-;
         vm_compute in Hnan; discriminate Hnan).
  cbn [spread].
  destruct (own props "bus_id") as [v | ];
    [destruct (strict_eq_string v "V2BMTC") | ]; repeat split.
Qed.

Lemma markers_spec (items : list value) :
  forall mapped : list (option value),
    mapM withNumbers items = Ok mapped ->
    Forall2 marks (filter rendered items) (map toMarker (filterBoolean mapped))
    /\ Forall (fun b => exists x y, coordinates b = Ok (x, y)) items.
Proof.
  induction items as [ | b t IH]; intros mapped H.
  - injection H as <-. split; constructor.
  - cbn [mapM] in H.
    destruct (withNumbers b) as [r | ] eqn:Hb; [ | discriminate H].
    cbn [bind] in H.
    destruct (mapM withNumbers t) as [rest | ]; [ | discriminate H].
    injection H as <-. destruct (IH rest eq_refl) as [IH1 IH2].
    destruct (withNumbers_spec b r Hb) as [x [y [Hc Hr]]].
    split.
    + cbn [filter]. destruct r as [bus | ].
      * destruct Hr as [-> Hm]. cbn. constructor; assumption.
      * rewrite Hr. exact IH1.
    + constructor; [exists x, y; exact Hc | exact IH2].
Qed.

Lemma rendered_false (b : value) (x y : float) :
  coordinates b = Ok (x, y) ->
  (rendered b = false <-> Num.isNaN x = true \/ Num.isNaN y = true).
Proof.
  intros Hc. unfold rendered. rewrite Hc. rewrite negb_false_iff.
  apply orb_true_iff.
Qed.

(** C7, amended.  When no record makes the projection throw, the markers
    are, in order, those of the records whose latitude and longitude
    both coerce to a number that is not [NaN], each at the position these
    two numbers give; a record is left out exactly when one of its
    coordinates coerces to [NaN]. *)
Theorem markers_keep_records_with_numbers
  (items : list value) (ms : list Marker) :
  markers (Array items) = Ok ms ->
  Forall2 (fun b m =>
             exists x y : float,
               coordinates b = Ok (x, y)
               /\ Num.isNaN x = false /\ Num.isNaN y = false
               /\ position m = (Number x, Number y))
          (filter rendered items) ms
  /\ forall b : value, In b items ->
       exists x y : float,
         coordinates b = Ok (x, y)
         /\ (rendered b = false <->
             Num.isNaN x = true \/ Num.isNaN y = true).
Proof.
  unfold markers.
  destruct (mapM withNumbers items) as [mapped | ] eqn:Hm; [ | discriminate].
  cbn [bind]. intros H. injection H as <-.
  destruct (markers_spec items mapped Hm) as [Hf Hall]. split.
  - assert (Hr : Forall (fun b => rendered b = true) (filter rendered items)).
    { apply Forall_forall. intros b Hb. apply filter_In in Hb. apply Hb. }
    revert Hr. induction Hf as [ | b m bs ms' Hbm _ IH]; intros Hr.
    + constructor.
    + inversion Hr as [ | ? ? Hb Hbs]; subst. constructor; [ | exact (IH Hbs)].
      destruct Hbm as [x [y [Hc [Hp _]]]]. exists x, y.
      unfold rendered in Hb. rewrite Hc in Hb.
      apply negb_true_iff, orb_false_iff in Hb. destruct Hb as [Hx Hy].
      repeat split; assumption.
  - intros b Hb. rewrite Forall_forall in Hall.
    destruct (Hall b Hb) as [x [y Hc]]. exists x, y.
    split; [exact Hc | exact (rendered_false b x y Hc)].
Qed.

(** The example of the specification: one highlighted marker, the
    malformed record dropped. *)
Example markers_specExample :
  markers (Array specExample)
  = Ok [ {| key := String "V2BMTC"; position := (Number 12.1, Number 77.2);
            icon := HIGHLIGHT_ICON |} ].
Proof. vm_compute. reflexivity. Qed.

Lemma markers_keep_records_with_numbers_witness :
  Forall2 (fun b m =>
             exists x y : float,
               coordinates b = Ok (x, y)
               /\ Num.isNaN x = false /\ Num.isNaN y = false
               /\ position m = (Number x, Number y))
          (filter rendered specExample)
          [ {| key := String "V2BMTC"; position := (Number 12.1, Number 77.2);
               icon := HIGHLIGHT_ICON |} ]
  /\ forall b : value, In b specExample ->
       exists x y : float,
         coordinates b = Ok (x, y)
         /\ (rendered b = false <->
             Num.isNaN x = true \/ Num.isNaN y = true).
Proof.
  apply (markers_keep_records_with_numbers specExample).
  vm_compute. reflexivity.
Defined.

(** C7, as stated, fails: a coordinate that coerces to an infinite value
    is not [NaN], and the record gets its marker. *)
Lemma markers_keep_infinite_coordinate :
  let b := Object [("bus_id", String "KA01"); ("latitude", String "Infinity");
                   ("longitude", String "77.2")] in
  coordinates b = Ok (infinity, 77.2)
  /\ Num.isFinite infinity = false
  /\ markers (Array [b])
     = Ok [ {| key := String "KA01";
               position := (Number infinity, Number 77.2);
               icon := DEFAULT_ICON |} ].
Proof. cbv zeta. repeat split; vm_compute; reflexivity. Qed.

(** C6, amended.  When no record makes the projection throw, every
    marker carries the [bus_id] of its record as key, and is highlighted
    exactly when that [bus_id] is the string ["V2BMTC"]: as many markers
    are highlighted as there are rendered records with this identifier,
    and all the others get the default icon. *)
Theorem markers_highlight_the_distinguished_bus
  (items : list value) (ms : list Marker) :
  markers (Array items) = Ok ms ->
  Forall2 (fun b m =>
             key m = get_opt b "bus_id"
             /\ icon m = if strict_eq_string (get_opt b "bus_id") "V2BMTC"
                         then HIGHLIGHT_ICON else DEFAULT_ICON)
          (filter rendered items) ms
  /\ List.length (filter highlighted ms)
     = List.length (filter distinguished (filter rendered items)).
Proof.
  unfold markers.
  destruct (mapM withNumbers items) as [mapped | ] eqn:Hm; [ | discriminate].
  cbn [bind]. intros H. injection H as <-.
  destruct (markers_spec items mapped Hm) as [Hf _].
  induction Hf as [ | b m bs ms' Hbm _ [IH1 IH2]].
  - split; [constructor | reflexivity].
  - destruct Hbm as [x [y [_ [_ [Hk Hh]]]]]. split.
    + constructor; [ | exact IH1]. split; [exact Hk | ].
      fold (distinguished b). rewrite <- Hh. unfold highlighted.
      destruct (icon m); reflexivity.
    + cbn [filter]. rewrite Hh.
      destruct (distinguished b); cbn [List.length]; rewrite IH2; reflexivity.
Qed.

Lemma markers_highlight_the_distinguished_bus_witness :
  Forall2 (fun b m =>
             key m = get_opt b "bus_id"
             /\ icon m = if strict_eq_string (get_opt b "bus_id") "V2BMTC"
                         then HIGHLIGHT_ICON else DEFAULT_ICON)
          (filter rendered specExample)
          [ {| key := String "V2BMTC"; position := (Number 12.1, Number 77.2);
               icon := HIGHLIGHT_ICON |} ]
  /\ List.length
       (filter highlighted
          [ {| key := String "V2BMTC"; position := (Number 12.1, Number 77.2);
               icon := HIGHLIGHT_ICON |} ])
     = List.length (filter distinguished (filter rendered specExample)).
Proof.
  apply (markers_highlight_the_distinguished_bus specExample).
  vm_compute. reflexivity.
Defined.

(** C6, as stated, fails: records are not deduplicated by identifier,
    and two records that carry the distinguished identifier are both
    highlighted. *)
Lemma markers_highlight_every_duplicate :
  markers
    (Array [ Object [("bus_id", String "V2BMTC"); ("latitude", Number 12.1);
                     ("longitude", Number 77.2)];
             Object [("bus_id", String "V2BMTC"); ("latitude", Number 12.3);
                     ("longitude", Number 77.4)] ])
  = Ok [ {| key := String "V2BMTC"; position := (Number 12.1, Number 77.2);
            icon := HIGHLIGHT_ICON |};
         {| key := String "V2BMTC"; position := (Number 12.3, Number 77.4);
            icon := HIGHLIGHT_ICON |} ].
Proof. vm_compute. reflexivity. Qed.

(** The variant without the filter classifies in the same way. *)
Lemma plain_markers_highlight (buses : list value) :
  forall ms : list Marker,
    MapViewPlain.markers buses = Ok ms ->
    Forall2 (fun b m => highlighted m = distinguished b) buses ms.
Proof.
  induction buses as [ | b t IH]; intros ms H.
  - injection H as <-. constructor.
  - unfold MapViewPlain.markers in H. cbn [mapM] in H.
    destruct (MapViewPlain.toMarker b) as [m | ] eqn:Hb; [ | discriminate H].
    cbn [bind] in H.
    destruct (mapM MapViewPlain.toMarker t) as [rest | ] eqn:Ht;
      [ | discriminate H].
    injection H as <-. constructor; [ | exact (IH rest Ht)].
    unfold MapViewPlain.toMarker in Hb.
    destruct (get b "bus_id") as [id | ] eqn:Hid; [ | discriminate Hb].
    cbn [bind] in Hb.
    destruct (get b "latitude") as [la | ]; [ | discriminate Hb].
    cbn [bind] in Hb.
    destruct (get b "longitude") as [lo | ]; [ | discriminate Hb].
    injection Hb as <-. unfold highlighted, distinguished, get_opt.
    rewrite Hid. cbn [icon].
    destruct (strict_eq_string id "V2BMTC"); reflexivity.
Qed.

End Markers.

(** ** The pollers *)

Section Pollers.

Lemma mem_remove_other (a b : nat) (l : list nat) :
  a <> b -> mem_nat a l = true -> mem_nat a (remove_nat b l) = true.
Proof.
  intros Hab. induction l as [ | m t IH]; cbn; [trivial | ].
  intros H. apply orb_true_iff in H.
  destruct (Nat.eqb b m) eqn:Ebm.
  - apply Nat.eqb_eq in Ebm. subst m. destruct H as [H | H].
    + apply Nat.eqb_eq in H. contradiction.
    + exact (IH H).
  - cbn. apply orb_true_iff. destruct H as [H | H]; [left | right]; auto.
Qed.

(** C3, as stated, fails.  Two ticks overlap; the request of the second
    tick completes first and the request of the first tick afterwards:
    the page ends with the payload of the older request. *)
Lemma stale_result_overwrites_newer :
  let s := LiveTrackingPage.run LiveTrackingPage.initial
             [ LiveTrackingPage.Mount; LiveTrackingPage.Tick;
               LiveTrackingPage.Settle 1 (LiveTrackingPage.Fulfilled freshBuses);
               LiveTrackingPage.Settle 0 (LiveTrackingPage.Fulfilled staleBuses) ] in
  LiveTrackingPage.buses s = staleBuses
  /\ LiveTrackingPage.buses s <> freshBuses
  /\ LiveTrackingPage.setBuses_calls s = [freshBuses; staleBuses].
Proof.
  cbv zeta. repeat split; try (vm_compute; reflexivity).
  vm_compute. discriminate.
Qed.

(** C3, amended.  No sequence number is kept: a fulfilled request is
    applied when it completes.  With two requests in flight, once the
    one issued later has completed, the completion of the one issued
    first replaces the displayed payload by the older result, on the
    bus page and on the ETA page alike. *)
Theorem late_result_is_applied
  (s : LiveTrackingPage.state) (e : EtaView.state) (a b : nat)
  (older newer : value) (status : Z) :
  (a < b)%nat ->
  LiveTrackingPage.mounted s = true ->
  mem_nat a (LiveTrackingPage.pending s) = true ->
  mem_nat b (LiveTrackingPage.pending s) = true ->
  EtaView.mounted e = true ->
  mem_nat a (EtaView.pending e) = true ->
  mem_nat b (EtaView.pending e) = true ->
  LiveTrackingPage.buses
    (LiveTrackingPage.run s
       [ LiveTrackingPage.Settle b (LiveTrackingPage.Fulfilled newer);
         LiveTrackingPage.Settle a (LiveTrackingPage.Fulfilled older) ])
  = older
  /\ EtaView.etaData
       (EtaView.run e
          [ EtaView.Settle b (Fetch.Response status (Fetch.Json newer));
            EtaView.Settle a (Fetch.Response status (Fetch.Json older)) ])
     = older.
Proof.
  intros Hab Hm Ha Hb Hm' Ha' Hb'.
  assert (Hne : a <> b) by lia. split.
  - destruct s as [mo bu iv pe iss calls con]. cbn in Hm, Ha, Hb. subst mo.
    cbn [LiveTrackingPage.run fold_left]. unfold LiveTrackingPage.step at 2.
    cbn [LiveTrackingPage.pending]. rewrite Hb. cbn.
    rewrite (mem_remove_other a b pe Hne Ha). reflexivity.
  - destruct e as [mo bi ed er iv pe iss calls]. cbn in Hm', Ha', Hb'.
    subst mo.
    cbn [EtaView.run fold_left]. unfold EtaView.step at 2.
    cbn [EtaView.pending]. rewrite Hb'. cbn.
    rewrite (mem_remove_other a b pe Hne Ha'). reflexivity.
Qed.

Lemma late_result_is_applied_witness :
  LiveTrackingPage.buses
    (LiveTrackingPage.run
       (LiveTrackingPage.run LiveTrackingPage.initial
          [LiveTrackingPage.Mount; LiveTrackingPage.Tick])
       [ LiveTrackingPage.Settle 1 (LiveTrackingPage.Fulfilled freshBuses);
         LiveTrackingPage.Settle 0 (LiveTrackingPage.Fulfilled staleBuses) ])
  = staleBuses
  /\ EtaView.etaData
       (EtaView.run
          (EtaView.run EtaView.initial
             [EtaView.Mount (String "V2BMTC"); EtaView.Tick])
          [ EtaView.Settle 1 (Fetch.Response 200 (Fetch.Json freshBuses));
            EtaView.Settle 0 (Fetch.Response 200 (Fetch.Json staleBuses)) ])
     = staleBuses.
Proof.
  apply (late_result_is_applied
           (LiveTrackingPage.run LiveTrackingPage.initial
              [LiveTrackingPage.Mount; LiveTrackingPage.Tick])
           (EtaView.run EtaView.initial
              [EtaView.Mount (String "V2BMTC"); EtaView.Tick])
           0%nat 1%nat staleBuses freshBuses 200%Z);
    try reflexivity; lia.
Defined.

(** C4, as stated, fails.  [fetch] fulfils whatever the status, so a
    404 whose body is JSON is not caught: the body replaces the stored
    payload, on the ETA poller and in the loaders of the map. *)
Lemma non_2xx_body_replaces_payload :
  let good := EtaView.run EtaView.initial
                [ EtaView.Mount (String "V2BMTC");
                  EtaView.Settle 0 (Fetch.Response 200 (Fetch.Json etaPayload));
                  EtaView.Tick ] in
  let bad := Fetch.Response 404 (Fetch.Json notFound) in
  Fetch.failed bad = true
  /\ EtaView.etaData good = etaPayload
  /\ EtaView.etaData (EtaView.step good (EtaView.Settle 1 bad)) = notFound
  /\ MapViewLoad.rawBuses
       (MapViewLoad.loadBuses
          {| MapViewLoad.rawBuses := staleBuses;
             MapViewLoad.rawRoutes := Array [] |} bad)
     = notFound.
Proof. cbv zeta. repeat split; vm_compute; reflexivity. Qed.

(** C4, amended.  A request that is rejected is caught where it was
    issued: on the bus page (where [axios] rejects) the payload and the
    timer are as before, the error is logged and the next tick issues its
    request; on the fetch-based paths a network error and a body that
    does not parse leave the stored payload and the timer as they were,
    while the ETA page shows its error message.  The status of a response
    is not looked at there: a body that parses is stored whatever the
    status. *)
Theorem rejected_request_keeps_payload
  (s : LiveTrackingPage.state) (e : EtaView.state) (m : MapViewLoad.state)
  (n k : nat) (err data : value) (status : Z) :
  LiveTrackingPage.interval s = true ->
  mem_nat n (LiveTrackingPage.pending s) = true ->
  EtaView.mounted e = true ->
  mem_nat k (EtaView.pending e) = true ->
  (let s' := LiveTrackingPage.step s
               (LiveTrackingPage.Settle n (LiveTrackingPage.Rejected err)) in
   LiveTrackingPage.buses s' = LiveTrackingPage.buses s
   /\ LiveTrackingPage.setBuses_calls s' = LiveTrackingPage.setBuses_calls s
   /\ LiveTrackingPage.console s' = (LiveTrackingPage.console s ++ [err])%list
   /\ LiveTrackingPage.interval s' = true
   /\ LiveTrackingPage.issued (LiveTrackingPage.step s' LiveTrackingPage.Tick)
      = S (LiveTrackingPage.issued s))
  /\ (forall o : Fetch.outcome,
        In o [Fetch.NetworkError; Fetch.Response status Fetch.NotJson] ->
        let e' := EtaView.step e (EtaView.Settle k o) in
        EtaView.etaData e' = EtaView.etaData e
        /\ EtaView.interval e' = EtaView.interval e
        /\ EtaView.view e' = EtaView.ErrorMessage (String "Could not fetch ETA")
        /\ MapViewLoad.loadBuses m o = m
        /\ MapViewLoad.loadRoutes m o = m)
  /\ EtaView.etaData
       (EtaView.step e
          (EtaView.Settle k (Fetch.Response status (Fetch.Json data))))
     = data
  /\ MapViewLoad.rawBuses
       (MapViewLoad.loadBuses m (Fetch.Response status (Fetch.Json data)))
     = data.
Proof.
  intros Hi Hn Hm Hk.
  destruct s as [mo bu iv pe iss calls con]. cbn in Hi, Hn. subst iv.
  destruct e as [mo' bi ed er iv' pe' iss' calls']. cbn in Hm, Hk. subst mo'.
  repeat split;
    try (cbn [LiveTrackingPage.step LiveTrackingPage.pending];
         rewrite Hn; reflexivity);
    try (destruct H as [<- | [<- | []]];
         cbn [EtaView.step EtaView.pending Fetch.json];
         try rewrite Hk; reflexivity).
  cbn [EtaView.step EtaView.pending Fetch.json]. rewrite Hk. reflexivity.
Qed.

Lemma rejected_request_keeps_payload_witness :
  LiveTrackingPage.buses
    (LiveTrackingPage.step
       (LiveTrackingPage.run LiveTrackingPage.initial
          [ LiveTrackingPage.Mount;
            LiveTrackingPage.Settle 0 (LiveTrackingPage.Fulfilled staleBuses);
            LiveTrackingPage.Tick ])
       (LiveTrackingPage.Settle 1
          (LiveTrackingPage.Rejected (String "Network Error"))))
  = staleBuses.
Proof.
  apply (rejected_request_keeps_payload
           (LiveTrackingPage.run LiveTrackingPage.initial
              [ LiveTrackingPage.Mount;
                LiveTrackingPage.Settle 0 (LiveTrackingPage.Fulfilled staleBuses);
                LiveTrackingPage.Tick ])
           (EtaView.run EtaView.initial [EtaView.Mount (String "V2BMTC")])
           MapViewLoad.initial 1%nat 0%nat (String "Network Error")
           notFound 404%Z);
    reflexivity.
Defined.

(** With the timer cleared, no event but a new mount issues a request. *)
Lemma no_request_without_timer (es : list LiveTrackingPage.event) :
  forall s : LiveTrackingPage.state,
    LiveTrackingPage.interval s = false ->
    forallb after_unmount es = true ->
    LiveTrackingPage.issued (LiveTrackingPage.run s es)
    = LiveTrackingPage.issued s
    /\ LiveTrackingPage.interval (LiveTrackingPage.run s es) = false.
Proof.
  induction es as [ | ev t IH]; intros s Hi Hes; [split; trivial | ].
  cbn in Hes. apply andb_true_iff in Hes. destruct Hes as [Hev Ht].
  cbn [LiveTrackingPage.run fold_left].
  assert (Hstep : LiveTrackingPage.issued (LiveTrackingPage.step s ev)
                  = LiveTrackingPage.issued s
                  /\ LiveTrackingPage.interval (LiveTrackingPage.step s ev)
                     = false).
  { destruct ev as [ | | n r | ]; try discriminate Hev;
      cbn [LiveTrackingPage.step].
    - rewrite Hi. split; [reflexivity | exact Hi].
    - destruct (mem_nat n (LiveTrackingPage.pending s));
        [destruct r | ]; split; trivial. }
  destruct Hstep as [H1 H2].
  destruct (IH (LiveTrackingPage.step s ev) H2 Ht) as [H3 H4].
  split; [ | exact H4].
  unfold LiveTrackingPage.run in H3. rewrite H3. exact H1.
Qed.

(** C5, as stated, fails.  On the bus page the request in flight at the
    cleanup still calls [setBuses] when it completes.  On the ETA page
    the cleanup also runs when [busId] changes: the request of the
    cancelled poller then completes on a mounted component and replaces
    the data shown. *)
Lemma in_flight_result_applied_after_cancel :
  LiveTrackingPage.setBuses_calls
    (LiveTrackingPage.run LiveTrackingPage.initial
       [ LiveTrackingPage.Mount; LiveTrackingPage.Unmount;
         LiveTrackingPage.Settle 0 (LiveTrackingPage.Fulfilled staleBuses) ])
  = [staleBuses]
  /\ (let e := EtaView.run EtaView.initial
                 [ EtaView.Mount (String "KA01");
                   EtaView.Navigate (String "V2BMTC");
                   EtaView.Settle 0 (Fetch.Response 200 (Fetch.Json etaPayload)) ] in
      EtaView.busId e = String "V2BMTC"
      /\ EtaView.etaData e = etaPayload
      /\ EtaView.etaData e <> EtaView.etaData EtaView.initial
      /\ EtaView.setEtaData_calls e = [etaPayload]).
Proof.
  cbv zeta. repeat split; try (vm_compute; reflexivity).
  vm_compute. discriminate.
Qed.

(** C5, amended.  The cleanup clears the timer and nothing else: from
    then on no tick issues a request, whatever completes in between;
    a request that was in flight is not guarded, and its completion
    still calls the setter with its result, which replaces the data
    shown whenever the component is mounted, as it is after a change
    of [busId] on the ETA page. *)
Theorem cancel_stops_only_the_timer
  (s : LiveTrackingPage.state) (es : list LiveTrackingPage.event)
  (e : EtaView.state) (id : value) (n k : nat) (data : value) (status : Z) :
  forallb after_unmount es = true ->
  mem_nat n (LiveTrackingPage.pending s) = true ->
  mem_nat k (EtaView.pending e) = true ->
  (let c := LiveTrackingPage.step s LiveTrackingPage.Unmount in
   LiveTrackingPage.interval c = false
   /\ LiveTrackingPage.issued (LiveTrackingPage.run c es)
      = LiveTrackingPage.issued s
   /\ LiveTrackingPage.setBuses_calls
        (LiveTrackingPage.step c
           (LiveTrackingPage.Settle n (LiveTrackingPage.Fulfilled data)))
      = (LiveTrackingPage.setBuses_calls s ++ [data])%list)
  /\ (let c := EtaView.step e (EtaView.Navigate id) in
      let c' := EtaView.step c
                  (EtaView.Settle k (Fetch.Response status (Fetch.Json data))) in
      EtaView.etaData c' = data
      /\ EtaView.setEtaData_calls c'
         = (EtaView.setEtaData_calls e ++ [data])%list)
  /\ (let c := EtaView.step e EtaView.Unmount in
      EtaView.interval c = None
      /\ EtaView.step c EtaView.Tick = c
      /\ EtaView.setEtaData_calls
           (EtaView.step c
              (EtaView.Settle k (Fetch.Response status (Fetch.Json data))))
         = (EtaView.setEtaData_calls e ++ [data])%list).
Proof.
  intros Hes Hn Hk. split; [ | split].
  - cbv zeta.
    destruct (no_request_without_timer es
                (LiveTrackingPage.step s LiveTrackingPage.Unmount)
                eq_refl Hes) as [H1 _].
    repeat split.
    + rewrite H1. reflexivity.
    + destruct s as [mo bu iv pe iss calls con]. cbn in Hn.
      cbn [LiveTrackingPage.step LiveTrackingPage.pending
           LiveTrackingPage.set_mounted LiveTrackingPage.clearInterval].
      rewrite Hn. reflexivity.
  - cbv zeta. destruct e as [mo bi ed er iv pe iss calls].
    cbn in Hk.
    assert (Hmem : mem_nat k
                     (EtaView.pending
                        (EtaView.step
                           {| EtaView.mounted := mo; EtaView.busId := bi;
                              EtaView.etaData := ed; EtaView.error := er;
                              EtaView.interval := iv; EtaView.pending := pe;
                              EtaView.issued := iss;
                              EtaView.setEtaData_calls := calls |}
                           (EtaView.Navigate id))) = true).
    { cbn. unfold EtaView.fetchETA. destruct (negb (truthy id)); cbn.
      - exact Hk.
      - induction pe as [ | p t IH]; cbn in *; [discriminate | ].
        apply orb_true_iff in Hk. apply orb_true_iff.
        destruct Hk as [Hk | Hk]; [left; exact Hk | right; exact (IH Hk)]. }
    unfold EtaView.step at 1 3. rewrite Hmem.
    cbn. unfold EtaView.fetchETA.
    destruct (negb (truthy id)); cbn; split; reflexivity.
  - cbv zeta. destruct e as [mo bi ed er iv pe iss calls]. cbn in Hk.
    repeat split.
    cbn [EtaView.step EtaView.cleanup EtaView.render EtaView.set_interval
         EtaView.pending]. rewrite Hk. reflexivity.
Qed.

Lemma cancel_stops_only_the_timer_witness :
  LiveTrackingPage.issued
    (LiveTrackingPage.run
       (LiveTrackingPage.step
          (LiveTrackingPage.run LiveTrackingPage.initial [LiveTrackingPage.Mount])
          LiveTrackingPage.Unmount)
       [LiveTrackingPage.Tick; LiveTrackingPage.Tick])
  = 1%nat.
Proof.
  apply (cancel_stops_only_the_timer
           (LiveTrackingPage.run LiveTrackingPage.initial [LiveTrackingPage.Mount])
           [LiveTrackingPage.Tick; LiveTrackingPage.Tick]
           (EtaView.run EtaView.initial [EtaView.Mount (String "KA01")])
           (String "V2BMTC") 0%nat 0%nat etaPayload 200%Z);
    reflexivity.
Defined.

End Pollers.

(** ** More on the point normaliser *)

Section NormalizePointMore.

Lemma validate_in_bounds (x y : float) (p : GeoPoint) :
  validate x y = Some p -> in_bounds p.
Proof.
  unfold validate, in_bounds.
  destruct (Num.isNaN x) eqn:Nx; [discriminate | ].
  destruct (Num.isNaN y) eqn:Ny; [discriminate | ]. cbn [orb].
  destruct (Num.gt (Num.abs x) 90 && Num.le (Num.abs y) 90).
  - rewrite (gt_abs_is_not_le y 90 Ny not_nan_90).
    rewrite (gt_abs_is_not_le x 180 Nx not_nan_180).
    destruct (Num.le (Num.abs y) 90) eqn:Ly; [ | discriminate].
    destruct (Num.le (Num.abs x) 180) eqn:Lx; [ | discriminate].
    intros H. injection H as <-. cbn. repeat split; assumption.
  - rewrite (gt_abs_is_not_le x 90 Nx not_nan_90).
    rewrite (gt_abs_is_not_le y 180 Ny not_nan_180).
    destruct (Num.le (Num.abs x) 90) eqn:Lx; [ | discriminate].
    destruct (Num.le (Num.abs y) 180) eqn:Ly; [ | discriminate].
    intros H. injection H as <-. cbn. repeat split; assumption.
Qed.

Lemma validate_fixed (p : GeoPoint) :
  in_bounds p -> validate (lat p) (lng p) = Some p.
Proof.
  destruct p as [a b]. unfold in_bounds. cbn [lat lng].
  intros [Nx [Ny [Lx Ly]]].
  assert (G1 : Num.gt (Num.abs a) 90 = false)
    by (rewrite (gt_abs_is_not_le a 90 Nx not_nan_90), Lx; reflexivity).
  assert (G2 : Num.gt (Num.abs b) 180 = false)
    by (rewrite (gt_abs_is_not_le b 180 Ny not_nan_180), Ly; reflexivity).
  unfold validate. rewrite Nx, Ny. cbn [orb]. rewrite G1. cbn [andb].
  rewrite G1, G2. reflexivity.
Qed.

(** What [normalizePoint] returns went through [validate]. *)
Lemma normalizePoint_validated (raw : value) (p : GeoPoint) :
  normalizePoint raw = Ok (Some p) ->
  exists x y : float, validate x y = Some p.
Proof.
  unfold normalizePoint. destruct (rejected raw); [discriminate | ].
  destruct (resolve raw) as [r | ]; [ | discriminate]. cbn [bind].
  destruct (coerce (fst r)) as [x | ]; [ | discriminate]. cbn [bind].
  destruct (coerce (snd r)) as [y | ]; [ | discriminate]. cbn [bind].
  intros H. injection H as H. exists x, y. exact H.
Qed.

(** X1.  Every point [normalizePoint] returns is a valid geographic
    point: neither coordinate is [NaN], the latitude is within 90 and the
    longitude within 180 in absolute value. *)
Theorem normalizePoint_in_bounds (raw : value) (p : GeoPoint) :
  normalizePoint raw = Ok (Some p) -> in_bounds p.
Proof.
  intros H. destruct (normalizePoint_validated raw p H) as [x [y Hv]].
  exact (validate_in_bounds x y p Hv).
Qed.

Lemma normalizePoint_in_bounds_witness :
  in_bounds {| lat := 45; lng := 120 |}.
Proof.
  apply (normalizePoint_in_bounds
           (Object [("lat", Number 120); ("lng", String " 45 ")])).
  vm_compute. reflexivity.
Defined.

(** X2.  [normalizePoint] is idempotent on its own output: a point it
    returned, written back as [{lat, lng}], normalises to itself. *)
Theorem normalizePoint_idempotent (raw : value) (p : GeoPoint) :
  normalizePoint raw = Ok (Some p) ->
  normalizePoint (rawPoint (lat p) (lng p)) = Ok (Some p).
Proof.
  intros H. apply normalizePoint_in_bounds in H.
  change (normalizePoint (rawPoint (lat p) (lng p)))
    with (Ok (A := option GeoPoint) (validate (lat p) (lng p))).
  rewrite (validate_fixed p H). reflexivity.
Qed.

Lemma normalizePoint_idempotent_witness :
  normalizePoint (rawPoint 45 120) = Ok (Some {| lat := 45; lng := 120 |}).
Proof.
  apply (normalizePoint_idempotent
           (Object [("Latitude", String "120"); ("lng ", Number 45)])
           {| lat := 45; lng := 120 |}).
  vm_compute. reflexivity.
Defined.

(** X3.  Whichever alias carries the latitude and whichever carries the
    longitude, a record with these two fields, neither [null] nor
    [undefined], normalises to what the coercion and validation of the two
    values give. *)
Theorem normalizePoint_any_alias (klat klng : string) (vlat vlng : value) :
  In klat latKeys ->
  In klng lngKeys ->
  nullish vlat = false ->
  nullish vlng = false ->
  normalizePoint (Object [(klat, vlat); (klng, vlng)])
  = (do x <- coerce vlat; do y <- coerce vlng; Ok (validate x y)).
Proof.
  intros Hlat Hlng Nlat Nlng.
  repeat (destruct Hlat as [<- | Hlat]; [ | ]); try contradiction;
    repeat (destruct Hlng as [<- | Hlng]; [ | ]); try contradiction;
    destruct vlat; try discriminate Nlat;
    destruct vlng; try discriminate Nlng; reflexivity.
Qed.

Lemma normalizePoint_any_alias_witness :
  normalizePoint (Object [("Latitude", String "12.5"); ("lng ", Number 77.25)])
  = Ok (Some {| lat := 12.5; lng := 77.25 |}).
Proof.
  etransitivity.
  - apply (normalizePoint_any_alias "Latitude" "lng " (String "12.5") (Number 77.25));
      try reflexivity; cbn; tauto.
  - vm_compute. reflexivity.
Defined.

(** X4.  Anything that is not a plain object - [undefined], [null], a
    boolean, a number, a string, an array - is answered with [null], and
    never with an exception. *)
Theorem normalizePoint_rejects_non_records (raw : value) :
  is_record raw = false -> normalizePoint raw = Ok None.
Proof.
  destruct raw as [ | | b | n | s | items | props]; intros H;
    try discriminate H;
    unfold normalizePoint, rejected; cbn [typeof_object truthy negb];
    rewrite ?orb_true_r; reflexivity.
Qed.

Lemma normalizePoint_rejects_non_records_witness :
  normalizePoint (Array [Number 12.5; Number 77.25]) = Ok None.
Proof.
  apply (normalizePoint_rejects_non_records (Array [Number 12.5; Number 77.25])).
  reflexivity.
Defined.

Lemma own_In (props : list (string * value)) (k : string) (v : value) :
  own props k = Some v -> In v (map snd props).
Proof.
  induction props as [ | [k' v'] t IH]; cbn; [discriminate | ].
  destruct (String.eqb k' k).
  - intros H. injection H as ->. left. reflexivity.
  - intros H. right. exact (IH H).
Qed.

(** On an object the chain of aliases does not throw, and it yields
    [undefined] or one of the property values. *)
Lemma firstKey_Object (props : list (string * value)) (keys : list string) :
  exists v : value,
    firstKey (Object props) keys = Ok v
    /\ (v = Undefined \/ In v (map snd props)).
Proof.
  induction keys as [ | k rest IH].
  - exists Undefined. split; [reflexivity | left; reflexivity].
  - assert (Hk : exists v, get (Object props) k = Ok v
                           /\ (v = Undefined \/ In v (map snd props))).
    { cbn [get]. destruct (own props k) as [x | ] eqn:E.
      - exists x. split; [reflexivity | right; exact (own_In props k x E)].
      - exists Undefined. split; [reflexivity | left; reflexivity]. }
    destruct Hk as [v [Hv Hin]].
    destruct rest as [ | k' rest'].
    + exists v. split; [exact Hv | exact Hin].
    + change (firstKey (Object props) (k :: k' :: rest'))
        with (do v <- get (Object props) k;
              match v with
              | Undefined | Null => firstKey (Object props) (k' :: rest')
              | _ => Ok v
              end).
      rewrite Hv. cbn [bind].
      destruct v; try exact IH; eexists; (split; [reflexivity | exact Hin]).
Qed.

(** X5.  On a record all of whose property values are booleans, numbers
    or strings, [normalizePoint] does not throw: it returns a point or
    [null]. *)
Theorem normalizePoint_total_on_flat_records (props : list (string * value)) :
  forallb flat (map snd props) = true ->
  exists r : option GeoPoint, normalizePoint (Object props) = Ok r.
Proof.
  intros Hflat. rewrite forallb_forall in Hflat.
  assert (Hval : forall v, v = Undefined \/ In v (map snd props) ->
                           nullish v = true \/ flat v = true).
  { intros v [-> | Hin]; [left; reflexivity | right; exact (Hflat v Hin)]. }
  unfold normalizePoint, resolve, rawLat, rawLng. cbn [rejected truthy typeof_object negb orb].
  destruct (firstKey_Object props ["lat"; "lat "; "latitude"; "Latitude"; "Lat"])
    as [vlat [Hlat Inlat]].
  destruct (firstKey_Object props ["lng"; "lng "; "longitude"; "Longitude"; "Lng"])
    as [vlng [Hlng Inlng]].
  rewrite Hlat, Hlng. cbn [bind].
  assert (Hn : nested vlat vlng = false).
  { destruct Inlng as [-> | Hin]; [destruct vlat; reflexivity | ].
    specialize (Hflat vlng Hin). destruct vlng; try discriminate Hflat;
      destruct vlat; reflexivity. }
  rewrite Hn. cbn [bind fst snd].
  assert (Hc : forall v, v = Undefined \/ In v (map snd props) ->
                         exists x, coerce v = Ok x).
  { intros v [-> | Hin]; [eexists; reflexivity | ].
    specialize (Hflat v Hin). destruct v; try discriminate Hflat;
      eexists; reflexivity. }
  destruct (Hc vlat Inlat) as [x Hx]. destruct (Hc vlng Inlng) as [y Hy].
  rewrite Hx, Hy. cbn [bind]. eexists. reflexivity.
Qed.

Lemma normalizePoint_total_on_flat_records_witness :
  exists r : option GeoPoint,
    normalizePoint (Object [("lat", String "north"); ("lng", Bool true)]) = Ok r.
Proof.
  apply (normalizePoint_total_on_flat_records
           [("lat", String "north"); ("lng", Bool true)]).
  reflexivity.
Defined.

(** X6.  On a record whose property values are booleans, numbers,
    strings or [null], [normalizePoint] throws in exactly one case: no
    latitude alias is set and the longitude resolves to [null].  [null]
    then passes the test [typeof lng === "object"] of the nested
    fallback, and reading its [lat] is a [TypeError]. *)
Theorem normalizePoint_throws_iff_null_longitude
  (props : list (string * value)) :
  forallb flatOrNull (map snd props) = true ->
  (normalizePoint (Object props) = TypeError
   <-> rawLat (Object props) = Ok Undefined
       /\ rawLng (Object props) = Ok Null).
Proof.
  intros Hflat. rewrite forallb_forall in Hflat.
  assert (Hval : forall v, v = Undefined \/ In v (map snd props) ->
                           v = Undefined \/ flatOrNull v = true).
  { intros v [-> | Hin]; [left; reflexivity | right; exact (Hflat v Hin)]. }
  unfold normalizePoint, resolve, rawLat, rawLng.
  cbn [rejected truthy typeof_object negb orb].
  destruct (firstKey_Object props ["lat"; "lat "; "latitude"; "Latitude"; "Lat"])
    as [vlat [Hlat Inlat]].
  destruct (firstKey_Object props ["lng"; "lng "; "longitude"; "Longitude"; "Lng"])
    as [vlng [Hlng Inlng]].
  rewrite Hlat, Hlng. cbn [bind].
  apply Hval in Inlat. apply Hval in Inlng.
  destruct vlat as [ | | ? | ? | ? | ? | ?];
    try (destruct Inlat as [Hl | Hl]; discriminate Hl);
    destruct vlng as [ | | ? | ? | ? | ? | ?];
    try (destruct Inlng as [Hl | Hl]; discriminate Hl);
    cbn; split; try discriminate; try (intros [H1 H2]; discriminate);
    try (intros _; split; reflexivity); reflexivity.
Qed.

Lemma normalizePoint_throws_iff_null_longitude_witness :
  normalizePoint (Object [("id", Number 7); ("lng", Null); ("Lng", Null)])
  = TypeError
  <-> rawLat (Object [("id", Number 7); ("lng", Null); ("Lng", Null)])
      = Ok Undefined
      /\ rawLng (Object [("id", Number 7); ("lng", Null); ("Lng", Null)])
         = Ok Null.
Proof.
  apply (normalizePoint_throws_iff_null_longitude
           [("id", Number 7); ("lng", Null); ("Lng", Null)]).
  reflexivity.
Defined.

Example normalizePoint_null_longitude_record :
  normalizePoint (Object [("id", Number 7); ("lng", Null); ("Lng", Null)])
  = TypeError
  /\ normalizePoint (Object [("lat", Null); ("lng", Null)]) = Ok None.
Proof. split; vm_compute; reflexivity. Qed.

End NormalizePointMore.

(** ** More on the aliases and on the coercion *)

Section Resolution.

(** X7.  The aliases are tried in order and the first one whose value is
    neither [null] nor [undefined] wins: a [null] under an earlier alias
    is skipped like a missing key, and later aliases are not looked at. *)
Theorem firstKey_first_set_alias_wins
  (props : list (string * value)) (pre post : list string) (k : string)
  (v : value) :
  (forall k' : string, In k' pre -> nullish (get_opt (Object props) k') = true) ->
  own props k = Some v ->
  nullish v = false ->
  firstKey (Object props) (pre ++ k :: post) = Ok v.
Proof.
  intros Hpre Hk Hv. induction pre as [ | k0 pre IH].
  - cbn [app]. destruct post as [ | k1 post].
    + cbn [firstKey get]. rewrite Hk. reflexivity.
    + change (firstKey (Object props) (k :: k1 :: post))
        with (do v <- get (Object props) k;
              match v with
              | Undefined | Null => firstKey (Object props) (k1 :: post)
              | _ => Ok v
              end).
      cbn [get]. rewrite Hk. cbn [bind].
      destruct v; try discriminate Hv; reflexivity.
  - assert (H0 : nullish (get_opt (Object props) k0) = true)
      by (apply Hpre; left; reflexivity).
    assert (IH' : firstKey (Object props) (pre ++ k :: post) = Ok v)
      by (apply IH; intros k' Hin; apply Hpre; right; exact Hin).
    cbn [app]. destruct (pre ++ k :: post)%list as [ | k1 rest] eqn:E.
    + destruct pre; discriminate E.
    + change (firstKey (Object props) (k0 :: k1 :: rest))
        with (do v <- get (Object props) k0;
              match v with
              | Undefined | Null => firstKey (Object props) (k1 :: rest)
              | _ => Ok v
              end).
      unfold get_opt in H0. cbn [get] in *.
      destruct (own props k0) as [x | ]; cbn [bind];
        [destruct x; try discriminate H0; exact IH' | exact IH'].
Qed.

Lemma firstKey_first_set_alias_wins_witness :
  rawLat (Object [("Lat", Number 3); ("latitude", String "12.5"); ("lat", Null)])
  = Ok (String "12.5").
Proof.
  apply (firstKey_first_set_alias_wins
           [("Lat", Number 3); ("latitude", String "12.5"); ("lat", Null)]
           ["lat"; "lat "] ["Latitude"; "Lat"] "latitude" (String "12.5")).
  - intros k' [<- | [<- | []]]; reflexivity.
  - reflexivity.
  - reflexivity.
Defined.

Lemma trimStart_split (l : list ascii) :
  exists w : list ascii,
    l = (w ++ Str.trimStart l)%list /\ forallb Str.is_ws w = true.
Proof.
  induction l as [ | c t [w [Hl Hw]]].
  - exists []. split; reflexivity.
  - cbn [Str.trimStart]. destruct (Str.is_ws c) eqn:Hc.
    + exists (c :: w). split.
      * cbn [app]. rewrite <- Hl. reflexivity.
      * cbn [forallb]. rewrite Hc, Hw. reflexivity.
    + exists []. split; reflexivity.
Qed.

Lemma trimStart_head (l : list ascii) :
  match Str.trimStart l with
  | c :: _ => Str.is_ws c = false
  | [] => True
  end.
Proof.
  induction l as [ | c t IH]; cbn [Str.trimStart]; [exact I | ].
  destruct (Str.is_ws c) eqn:Hc; [exact IH | exact Hc].
Qed.

Lemma trimStart_fixed (l : list ascii) :
  match l with
  | c :: _ => Str.is_ws c = false
  | [] => True
  end ->
  Str.trimStart l = l.
Proof.
  destruct l as [ | c t]; [reflexivity | ].
  intros H. cbn [Str.trimStart]. rewrite H. reflexivity.
Qed.

Lemma trimEnd_head (l : list ascii) :
  match l with
  | c :: _ => Str.is_ws c = false
  | [] => True
  end ->
  match Str.trimEnd l with
  | c :: _ => Str.is_ws c = false
  | [] => True
  end.
Proof.
  intros H. unfold Str.trimEnd.
  destruct (trimStart_split (rev l)) as [w [Hl Hw]].
  assert (E : l = (rev (Str.trimStart (rev l)) ++ rev w)%list).
  { rewrite <- rev_app_distr, <- Hl, rev_involutive. reflexivity. }
  destruct (rev (Str.trimStart (rev l))) as [ | c t]; [exact I | ].
  rewrite E in H. exact H.
Qed.

Lemma trimEnd_idempotent (l : list ascii) :
  Str.trimEnd (Str.trimEnd l) = Str.trimEnd l.
Proof.
  unfold Str.trimEnd. rewrite rev_involutive.
  rewrite (trimStart_fixed (Str.trimStart (rev l)) (trimStart_head (rev l))).
  reflexivity.
Qed.

(** Trimming what is already trimmed changes nothing. *)
Lemma trim_idempotent (s : string) : Str.trim (Str.trim s) = Str.trim s.
Proof.
  unfold Str.trim. rewrite list_ascii_of_string_of_list_ascii.
  rewrite (trimStart_fixed _
             (trimEnd_head _ (trimStart_head (list_ascii_of_string s)))).
  rewrite trimEnd_idempotent. reflexivity.
Qed.

Lemma toNumber_trim (s : string) : Str.toNumber (Str.trim s) = Str.toNumber s.
Proof.
  unfold Str.toNumber.
  assert (E : Str.trimEnd (Str.trimStart (list_ascii_of_string (Str.trim s)))
              = Str.trimEnd (Str.trimStart (list_ascii_of_string s))).
  { pose proof (trim_idempotent s) as H. unfold Str.trim at 1 3 in H.
    apply (f_equal list_ascii_of_string) in H.
    rewrite !list_ascii_of_string_of_list_ascii in H. exact H. }
  rewrite E. reflexivity.
Qed.

(** X8.  The explicit [trim] before [Number] is redundant: a string
    coordinate is coerced to the number that [Number] gives for the
    untrimmed string, and the coercion of a string never throws. *)
Theorem coerce_string_ignores_trim (s : string) :
  coerce (String s) = toNumber (String s).
Proof.
  unfold coerce. cbn [toNumber]. rewrite toNumber_trim. reflexivity.
Qed.

End Resolution.

(** ** More on the route sanitiser *)

Section SanitizeMore.

Lemma mapM_TypeError {A B : Type} (f : A -> result B) (l : list A) :
  mapM f l = TypeError <-> Exists (fun a => f a = TypeError) l.
Proof.
  induction l as [ | a t IH]; cbn [mapM].
  - split; [discriminate | intros H; inversion H].
  - split.
    + destruct (f a) as [b | ] eqn:Ha; cbn [bind].
      * destruct (mapM f t) as [bs | ]; cbn [bind]; [discriminate | ].
        intros _. apply Exists_cons_tl. apply IH. reflexivity.
      * intros _. apply Exists_cons_hd. exact Ha.
    + intros H. inversion H as [? ? Ha | ? ? Ht]; subst.
      * rewrite Ha. reflexivity.
      * destruct (f a); cbn [bind]; [ | reflexivity].
        apply IH in Ht. rewrite Ht. reflexivity.
Qed.

Lemma mapM_Forall {A B : Type} (f : A -> result B) (P : B -> Prop) (l : list A) :
  (forall a b, f a = Ok b -> P b) ->
  forall bs : list B, mapM f l = Ok bs ->
                      Forall P bs /\ List.length bs = List.length l.
Proof.
  intros Hf. induction l as [ | a t IH]; intros bs H; cbn [mapM] in H.
  - injection H as <-. split; [constructor | reflexivity].
  - destruct (f a) as [b | ] eqn:Ha; [ | discriminate H]. cbn [bind] in H.
    destruct (mapM f t) as [rest | ]; [ | discriminate H].
    injection H as <-. destruct (IH rest eq_refl) as [H1 H2]. split.
    + constructor; [exact (Hf a b Ha) | exact H1].
    + cbn [List.length]. rewrite H2. reflexivity.
Qed.

Lemma sanitize_filter (coordinates : list value) (normalized : list (option GeoPoint)) :
  mapM normalizePoint coordinates = Ok normalized ->
  sanitize coordinates
  = Ok (select (map (keptAt (filterBoolean normalized))
                  (seq 0 (List.length (filterBoolean normalized))))
          (filterBoolean normalized)).
Proof.
  intros H. unfold sanitize. rewrite H. cbn [bind].
  exact (filterFrom_notDuplicate (filterBoolean normalized)
           (filterBoolean normalized) 0%nat eq_refl).
Qed.

(** X9.  [sanitize] throws exactly when [normalizePoint] throws on one of
    the coordinates: a single such vertex takes the whole polyline with
    it, and nothing else makes the chain throw. *)
Theorem sanitize_throws_iff (coordinates : list value) :
  sanitize coordinates = TypeError
  <-> Exists (fun c => normalizePoint c = TypeError) coordinates.
Proof.
  rewrite <- mapM_TypeError. split.
  - intros H. destruct (mapM normalizePoint coordinates) as [normalized | ] eqn:E;
      [ | reflexivity].
    rewrite (sanitize_filter coordinates normalized E) in H. discriminate H.
  - intros H. unfold sanitize. rewrite H. reflexivity.
Qed.

Lemma select_subseq {A : Type} (keep : list bool) :
  forall l : list A, List.length keep = List.length l -> subseq (select keep l) l.
Proof.
  induction keep as [ | b k IH]; intros l H.
  - destruct l; [constructor | discriminate H].
  - destruct l as [ | a t]; [discriminate H | ].
    cbn [select]. injection H as H. destruct b.
    + apply subseq_keep. exact (IH t H).
    + apply subseq_skip. exact (IH t H).
Qed.

Lemma subseq_Forall {A : Type} (P : A -> Prop) (l m : list A) :
  subseq l m -> Forall P m -> Forall P l.
Proof.
  induction 1 as [ | a l m _ IH | a l m _ IH]; intros H.
  - constructor.
  - inversion H; subst. apply IH. assumption.
  - inversion H; subst. constructor; [assumption | apply IH; assumption].
Qed.

Lemma subseq_length {A : Type} (l m : list A) :
  subseq l m -> (List.length l <= List.length m)%nat.
Proof.
  induction 1; cbn [List.length]; lia.
Qed.

Lemma filterBoolean_Forall {A : Type} (P : A -> Prop) (l : list (option A)) :
  Forall (fun o => match o with Some a => P a | None => True end) l ->
  Forall P (filterBoolean l)
  /\ (List.length (filterBoolean l) <= List.length l)%nat.
Proof.
  induction 1 as [ | o t Ho _ [IH1 IH2]]; cbn [filterBoolean List.length].
  - split; [constructor | lia].
  - destruct o as [a | ]; cbn [List.length]; split;
      try (constructor; assumption); try assumption; lia.
Qed.

(** X10.  When [sanitize] returns, the polyline is made of normalised
    points of the input, in their order, none added and none moved; each
    of them is a valid geographic point, and there are no more of them
    than raw coordinates. *)
Theorem sanitize_subsequence_in_bounds
  (coordinates : list value) (out : list GeoPoint) :
  sanitize coordinates = Ok out ->
  Forall in_bounds out
  /\ (List.length out <= List.length coordinates)%nat
  /\ exists normalized : list (option GeoPoint),
       mapM normalizePoint coordinates = Ok normalized
       /\ subseq out (filterBoolean normalized).
Proof.
  intros H.
  destruct (mapM normalizePoint coordinates) as [normalized | ] eqn:E;
    [ | unfold sanitize in H; rewrite E in H; discriminate H].
  rewrite (sanitize_filter coordinates normalized E) in H. injection H as <-.
  set (arr := filterBoolean normalized).
  assert (Hsub : subseq (select (map (keptAt arr) (seq 0 (List.length arr))) arr) arr)
    by (apply select_subseq; rewrite length_map, length_seq; reflexivity).
  destruct (mapM_Forall normalizePoint
              (fun o => match o with Some a => in_bounds a | None => True end)
              coordinates) with (bs := normalized) as [Hall Hlen].
  { intros a [p | ] Ha; [ | exact I].
    destruct (normalizePoint_validated a p Ha) as [x [y Hv]].
    exact (validate_in_bounds x y p Hv). }
  { exact E. }
  destruct (filterBoolean_Forall in_bounds normalized Hall) as [Hb Hl].
  split; [exact (subseq_Forall in_bounds _ arr Hsub Hb) | ].
  split; [pose proof (subseq_length _ _ Hsub); fold arr in Hl; lia | ].
  exists normalized. split; [reflexivity | exact Hsub].
Qed.

Lemma sanitize_subsequence_in_bounds_witness :
  Forall in_bounds
    [ {| lat := 1; lng := 1 |}; {| lat := 2; lng := 2 |};
      {| lat := 1; lng := 1 |} ].
Proof.
  apply (sanitize_subsequence_in_bounds revisiting
           [ {| lat := 1; lng := 1 |}; {| lat := 2; lng := 2 |};
             {| lat := 1; lng := 1 |} ]).
  vm_compute. reflexivity.
Defined.

End SanitizeMore.

(** ** The polyline, its centre and the markers together *)

Section RenderState.

Lemma select_head {A : Type} (f : nat -> bool) (a : A) (t : list A) :
  f 0%nat = true ->
  exists rest : list A,
    select (map f (seq 0 (List.length (a :: t)))) (a :: t) = a :: rest.
Proof.
  intros H. cbn [List.length seq map select]. rewrite H.
  eexists. reflexivity.
Qed.

(** X11.  The deduplication never moves the centre of the map: the
    centre computed from the polyline is the first coordinate that
    normalises to a point, or the anchor when there is none. *)
Theorem center_is_first_valid_coordinate
  (coordinates : list value) (normalized : list (option GeoPoint))
  (out : list GeoPoint) :
  mapM normalizePoint coordinates = Ok normalized ->
  sanitize coordinates = Ok out ->
  center out = center (filterBoolean normalized).
Proof.
  intros Hn Hs. rewrite (sanitize_filter coordinates normalized Hn) in Hs.
  injection Hs as <-.
  destruct (filterBoolean normalized) as [ | p t]; [reflexivity | ].
  destruct (select_head (keptAt (p :: t)) p t eq_refl) as [rest ->].
  reflexivity.
Qed.

Lemma center_is_first_valid_coordinate_witness :
  center [ {| lat := 1; lng := 1 |}; {| lat := 2; lng := 2 |} ]
  = center [ {| lat := 1; lng := 1 |}; {| lat := 1.0000001; lng := 1.0000001 |};
             {| lat := 2; lng := 2 |} ].
Proof.
  apply (center_is_first_valid_coordinate
           [String "x"; rawPoint 1 1; rawPoint 1.0000001 1.0000001; rawPoint 2 2]
           [ None; Some {| lat := 1; lng := 1 |};
             Some {| lat := 1.0000001; lng := 1.0000001 |};
             Some {| lat := 2; lng := 2 |} ]);
    vm_compute; reflexivity.
Defined.

Lemma find_no_match (rawRoutes : list value) (routeIdToShow : string) :
  Forall (fun r => strict_eq_string (get_opt r "id") routeIdToShow = false)
         rawRoutes ->
  find rawRoutes routeIdToShow = Undefined.
Proof.
  induction 1 as [ | r t Hr _ IH]; cbn [find]; [reflexivity | ].
  rewrite Hr. exact IH.
Qed.

(** X12.  When no route of the payload carries the requested [id] (in
    particular when the payload is the empty array), nothing is drawn and
    nothing throws: the polyline is empty and the map is centred on the
    anchor. *)
Theorem unknown_route_draws_nothing
  (rawRoutes : list value) (routeIdToShow : string) :
  Forall (fun r => strict_eq_string (get_opt r "id") routeIdToShow = false)
         rawRoutes ->
  (do r <- route (Array rawRoutes) routeIdToShow; routeCoords r) = Ok []
  /\ center [] = (12.8251353, 77.5148474)
  /\ polylinePositions [] = [].
Proof.
  intros H. unfold route. rewrite (find_no_match rawRoutes routeIdToShow H).
  repeat split.
Qed.

Lemma unknown_route_draws_nothing_witness :
  (do r <- route (Array [ Object [("id", String "r1");
                                  ("coordinates", Array revisiting)];
                          Null; Object [("id", Number 7)] ]) "r7";
   routeCoords r) = Ok [].
Proof.
  apply (unknown_route_draws_nothing
           [ Object [("id", String "r1"); ("coordinates", Array revisiting)];
             Null; Object [("id", Number 7)] ] "r7").
  repeat constructor.
Defined.

Lemma mapM_toRaw (ps : list GeoPoint) :
  Forall in_bounds ps ->
  mapM normalizePoint (map toRaw ps) = Ok (map Some ps).
Proof.
  induction 1 as [ | p t Hp _ IH]; [reflexivity | ].
  cbn [map mapM]. rewrite IH.
  change (normalizePoint (toRaw p))
    with (Ok (A := option GeoPoint) (validate (lat p) (lng p))).
  rewrite (validate_fixed p Hp). reflexivity.
Qed.

Lemma filterBoolean_map_Some {A : Type} (l : list A) :
  filterBoolean (map Some l) = l.
Proof.
  induction l as [ | a t IH]; cbn [map filterBoolean]; [ | rewrite IH];
    reflexivity.
Qed.

(** On a spaced list the second filter keeps every index. *)
Lemma filterFrom_spaced (arr : list GeoPoint) :
  forall (l : list GeoPoint) (i : nat),
    skipn i arr = l ->
    match i with
    | O => True
    | S j => match nth_error arr j, l with
             | Some prev, p :: _ => near prev p = false
             | _, _ => True
             end
    end ->
    spaced l = true ->
    filterFrom notDuplicate arr i l = Ok l.
Proof.
  induction l as [ | p t IH]; intros i Hskip Hprev Hsp; [reflexivity | ].
  destruct (skipn_cons_inv arr i p t Hskip) as [Hp Ht].
  cbn [filterFrom].
  assert (Hkeep : notDuplicate p i arr = Ok true).
  { unfold notDuplicate. destruct i as [ | j]; [reflexivity | ].
    cbn [Nat.eqb]. replace (S j - 1)%nat with j by lia.
    destruct (nth_error arr j) as [prev | ] eqn:Hj.
    - rewrite Hprev. reflexivity.
    - apply nth_error_None in Hj.
      assert (S j < List.length arr)%nat
        by (apply nth_error_Some; rewrite Hp; discriminate).
      lia. }
  rewrite Hkeep. cbn [bind].
  rewrite (IH (S i) Ht).
  - reflexivity.
  - rewrite Hp. destruct t as [ | q t']; [exact I | ].
    cbn [spaced] in Hsp. apply andb_true_iff in Hsp.
    apply negb_true_iff. apply Hsp.
  - destruct t as [ | q t']; [reflexivity | ].
    cbn [spaced] in Hsp. apply andb_true_iff in Hsp. apply Hsp.
Qed.

(** X13.  On a polyline that is already clean - valid points written as
    [{lat, lng}], none within epsilon of the one before it - [sanitize]
    changes nothing. *)
Theorem sanitize_identity_on_clean_polyline (ps : list GeoPoint) :
  Forall in_bounds ps ->
  spaced ps = true ->
  sanitize (map toRaw ps) = Ok ps.
Proof.
  intros Hb Hs. unfold sanitize. rewrite (mapM_toRaw ps Hb). cbn [bind].
  rewrite filterBoolean_map_Some.
  exact (filterFrom_spaced ps ps 0%nat eq_refl I Hs).
Qed.

Lemma sanitize_identity_on_clean_polyline_witness :
  sanitize (map toRaw [ {| lat := 12.9; lng := 77.5 |};
                        {| lat := 12.91; lng := 77.5 |};
                        {| lat := 12.9; lng := 77.5 |} ])
  = Ok [ {| lat := 12.9; lng := 77.5 |}; {| lat := 12.91; lng := 77.5 |};
         {| lat := 12.9; lng := 77.5 |} ].
Proof.
  apply (sanitize_identity_on_clean_polyline
           [ {| lat := 12.9; lng := 77.5 |}; {| lat := 12.91; lng := 77.5 |};
             {| lat := 12.9; lng := 77.5 |} ]).
  - repeat constructor.
  - vm_compute. reflexivity.
Defined.


Example markers_throw_on_null_record :
  markers (Array (specExample ++ [Null])) = TypeError.
Proof. vm_compute. reflexivity. Qed.

Lemma wellFormed_markers (props : list (string * value)) (x y : float) :
  own props "latitude" = Some (Number x) ->
  own props "longitude" = Some (Number y) ->
  Num.isNaN x = false ->
  Num.isNaN y = false ->
  exists (bus : value) (m : Marker),
    withNumbers (Object props) = Ok (Some bus)
    /\ MapViewPlain.toMarker (Object props) = Ok m
    /\ toMarker bus = m.
Proof.
  intros Hla Hlo Hx Hy.
  unfold withNumbers, MapViewPlain.toMarker, toMarker, get_opt.
  cbn [get spread]. rewrite Hla, Hlo. cbn [bind toNumber].
  rewrite Hx, Hy. cbn [orb].
  destruct (own props "bus_id") as [id | ] eqn:Hid; cbn [bind];
    (eexists; eexists; split; [reflexivity | ]; split; [reflexivity | ];
     cbn [get];
     rewrite (own_set_other _ "longitude" "latitude") by reflexivity;
     rewrite (own_set_other _ "longitude" "bus_id") by reflexivity;
     rewrite (own_set_other _ "latitude" "bus_id") by reflexivity;
     rewrite !own_set_same, Hid; reflexivity).
Qed.

(** X15.  On a payload of well-formed records - objects whose
    [latitude] and [longitude] are numbers other than [NaN] - the variant
    that coerces and filters and the variant that does neither draw the
    same markers. *)
Theorem variants_agree_on_well_formed_buses (items : list value) :
  forallb wellFormedBus items = true ->
  markers (Array items) = MapViewPlain.markers items.
Proof.
  intros H. unfold markers, MapViewPlain.markers.
  induction items as [ | b t IH]; [reflexivity | ].
  cbn [forallb] in H. apply andb_true_iff in H. destruct H as [Hb Ht].
  specialize (IH Ht).
  destruct b as [ | | ? | ? | ? | ? | props]; try discriminate Hb.
  cbn [wellFormedBus] in Hb.
  destruct (own props "latitude") as [[ | | | x | | | ] | ] eqn:Hla;
    try discriminate Hb.
  destruct (own props "longitude") as [[ | | | y | | | ] | ] eqn:Hlo;
    try discriminate Hb.
  apply andb_true_iff in Hb. destruct Hb as [Hx Hy].
  apply negb_true_iff in Hx. apply negb_true_iff in Hy.
  destruct (wellFormed_markers props x y Hla Hlo Hx Hy) as [bus [m [Hw [Hp Hm]]]].
  cbn [mapM]. rewrite Hw, Hp. cbn [bind].
  destruct (mapM withNumbers t) as [mapped | ];
    destruct (mapM MapViewPlain.toMarker t) as [ms | ];
    cbn [bind] in *; try discriminate IH; [ | reflexivity].
  injection IH as <-. cbn [filterBoolean map]. rewrite Hm. reflexivity.
Qed.

Lemma variants_agree_on_well_formed_buses_witness :
  markers freshBuses
  = MapViewPlain.markers
      [ Object [("bus_id", String "V2BMTC"); ("latitude", Number 12.3);
                ("longitude", Number 77.4)] ].
Proof.
  apply (variants_agree_on_well_formed_buses
           [ Object [("bus_id", String "V2BMTC"); ("latitude", Number 12.3);
                     ("longitude", Number 77.4)] ]).
  vm_compute. reflexivity.
Defined.

(** X16.  The two payloads are not guarded alike.  A response body that
    parses to anything but an array - an error object, say - is stored by
    both loaders whatever the status; the markers then render as none,
    but looking up the route throws, [find] being called on a value that
    has none. *)
Theorem non_array_body_breaks_routes_only
  (s : MapViewLoad.state) (status : Z) (v : value) (routeIdToShow : string) :
  isArray v = false ->
  markers (MapViewLoad.rawBuses
             (MapViewLoad.loadBuses s (Fetch.Response status (Fetch.Json v))))
  = Ok []
  /\ route (MapViewLoad.rawRoutes
              (MapViewLoad.loadRoutes s (Fetch.Response status (Fetch.Json v))))
            routeIdToShow
     = TypeError.
Proof.
  intros H. cbn [MapViewLoad.loadBuses MapViewLoad.loadRoutes Fetch.json
                 MapViewLoad.rawBuses MapViewLoad.rawRoutes].
  destruct v; try discriminate H; split; reflexivity.
Qed.

Lemma non_array_body_breaks_routes_only_witness :
  markers (MapViewLoad.rawBuses
             (MapViewLoad.loadBuses MapViewLoad.initial
                (Fetch.Response 404 (Fetch.Json notFound))))
  = Ok []
  /\ route (MapViewLoad.rawRoutes
              (MapViewLoad.loadRoutes MapViewLoad.initial
                 (Fetch.Response 404 (Fetch.Json notFound))))
            "e93ea2bb-c548-4ec6-a388-2fa84f710341"
     = TypeError.
Proof.
  apply (non_array_body_breaks_routes_only MapViewLoad.initial 404 notFound
           "e93ea2bb-c548-4ec6-a388-2fa84f710341").
  reflexivity.
Defined.

End RenderState.

(** ** More on the pollers *)

Section PollersMore.

Lemma step_buses (s : LiveTrackingPage.state) (ev : LiveTrackingPage.event) :
  LiveTrackingPage.buses (LiveTrackingPage.step s ev) = LiveTrackingPage.buses s
  \/ exists n : nat,
       ev = LiveTrackingPage.Settle n
              (LiveTrackingPage.Fulfilled
                 (LiveTrackingPage.buses (LiveTrackingPage.step s ev))).
Proof.
  destruct ev as [ | | n r | ]; cbn [LiveTrackingPage.step].
  - left. reflexivity.
  - left. destruct (LiveTrackingPage.interval s); reflexivity.
  - destruct (mem_nat n (LiveTrackingPage.pending s)); [ | left; reflexivity].
    destruct r as [data | err]; [ | left; reflexivity].
    cbn. destruct (LiveTrackingPage.mounted s); [right | left; reflexivity].
    exists n. reflexivity.
  - left. reflexivity.
Qed.

Lemma step_etaData (s : EtaView.state) (ev : EtaView.event) :
  EtaView.etaData (EtaView.step s ev) = EtaView.etaData s
  \/ exists (n : nat) (status : Z),
       ev = EtaView.Settle n
              (Fetch.Response status
                 (Fetch.Json (EtaView.etaData (EtaView.step s ev)))).
Proof.
  destruct ev as [id | id | | n o | ]; cbn [EtaView.step].
  - left. unfold EtaView.effect, EtaView.fetchETA.
    destruct (negb (truthy id)); reflexivity.
  - left. unfold EtaView.effect, EtaView.fetchETA.
    destruct (negb (truthy id)); reflexivity.
  - left. destruct (EtaView.interval s) as [id | ]; [ | reflexivity].
    unfold EtaView.fetchETA. destruct (negb (truthy id)); reflexivity.
  - destruct (mem_nat n (EtaView.pending s)); [ | left; reflexivity].
    destruct o as [ | status [v | ]]; cbn [Fetch.json];
      try (left; reflexivity).
    cbn. destruct (EtaView.mounted s); [right | left; reflexivity].
    exists n, status. reflexivity.
  - left. reflexivity.
Qed.

(** X17.  Whatever happens, each page shows either what it started with
    (no bus, no ETA) or the body of a response it received: a rejected
    request, a tick, a mount or a cleanup never changes the data shown. *)
Theorem displayed_data_comes_from_a_response :
  (forall es : list LiveTrackingPage.event,
     let s := LiveTrackingPage.run LiveTrackingPage.initial es in
     LiveTrackingPage.buses s = Array []
     \/ exists n : nat,
          In (LiveTrackingPage.Settle n
                (LiveTrackingPage.Fulfilled (LiveTrackingPage.buses s))) es)
  /\ (forall es : list EtaView.event,
        let s := EtaView.run EtaView.initial es in
        EtaView.etaData s = Null
        \/ exists (n : nat) (status : Z),
             In (EtaView.Settle n
                   (Fetch.Response status (Fetch.Json (EtaView.etaData s)))) es).
Proof.
  split.
  - intros es. cbv zeta.
    change (Array []) with (LiveTrackingPage.buses LiveTrackingPage.initial).
    generalize LiveTrackingPage.initial as s0. induction es as [ | ev t IH]; intros s0.
    + left. reflexivity.
    + cbn [LiveTrackingPage.run fold_left].
      destruct (IH (LiveTrackingPage.step s0 ev)) as [H | [n H]].
      * unfold LiveTrackingPage.run in H. rewrite H.
        destruct (step_buses s0 ev) as [H' | [n H']]; [left; exact H' | right].
        exists n. left. exact H'.
      * right. exists n. right. exact H.
  - intros es. cbv zeta.
    change Null with (EtaView.etaData EtaView.initial) at 1.
    generalize EtaView.initial as s0. induction es as [ | ev t IH]; intros s0.
    + left. reflexivity.
    + cbn [EtaView.run fold_left].
      destruct (IH (EtaView.step s0 ev)) as [H | [n [st H]]].
      * unfold EtaView.run in H. rewrite H.
        destruct (step_etaData s0 ev) as [H' | [n [st H']]];
          [left; exact H' | right].
        exists n, st. left. exact H'.
      * right. exists n, st. right. exact H.
Qed.

Lemma LiveTrackingPage_run_app (s : LiveTrackingPage.state)
  (es es' : list LiveTrackingPage.event) :
  LiveTrackingPage.run s (es ++ es')
  = LiveTrackingPage.run (LiveTrackingPage.run s es) es'.
Proof. unfold LiveTrackingPage.run. apply fold_left_app. Qed.

(** X18.  A tick never waits for the request before it: as long as
    nothing is answered, [n] ticks after the mount leave [n + 1] requests
    in flight. *)
Theorem unanswered_requests_pile_up (n : nat) :
  let s := LiveTrackingPage.run LiveTrackingPage.initial
             (LiveTrackingPage.Mount :: repeat LiveTrackingPage.Tick n) in
  LiveTrackingPage.pending s = seq 0 (S n)
  /\ LiveTrackingPage.issued s = S n
  /\ LiveTrackingPage.interval s = true.
Proof.
  cbv zeta. induction n as [ | n [IH1 [IH2 IH3]]].
  - repeat split.
  - replace (LiveTrackingPage.Mount :: repeat LiveTrackingPage.Tick (S n))
      with ((LiveTrackingPage.Mount :: repeat LiveTrackingPage.Tick n)
              ++ [LiveTrackingPage.Tick])%list
      by (cbn [app repeat]; rewrite <- repeat_cons; reflexivity).
    rewrite LiveTrackingPage_run_app.
    set (s := LiveTrackingPage.run LiveTrackingPage.initial
                (LiveTrackingPage.Mount :: repeat LiveTrackingPage.Tick n)) in *.
    change (LiveTrackingPage.run s [LiveTrackingPage.Tick])
      with (LiveTrackingPage.step s LiveTrackingPage.Tick).
    cbn [LiveTrackingPage.step]. rewrite IH3.
    unfold LiveTrackingPage.fetchBuses.
    cbn [LiveTrackingPage.pending LiveTrackingPage.issued LiveTrackingPage.interval].
    rewrite IH1, IH2, IH3. repeat split.
    rewrite (seq_S (S n) 0). reflexivity.
Qed.

(** X19.  Without a bus identifier the ETA page never asks anything:
    whatever the timer does, no request is issued and the page stays on
    its loading message. *)
Theorem eta_without_bus_id_never_fetches
  (id : value) (es : list EtaView.event) :
  truthy id = false ->
  forallb keeps_busId es = true ->
  let s := EtaView.run (EtaView.step EtaView.initial (EtaView.Mount id)) es in
  EtaView.issued s = 0%nat /\ EtaView.view s = EtaView.Loading.
Proof.
  intros Hid Hes. cbv zeta.
  assert (Inv : forall s : EtaView.state,
             (EtaView.issued s = 0%nat /\ EtaView.pending s = []
              /\ EtaView.etaData s = Null /\ EtaView.error s = Null
              /\ (EtaView.interval s = Some id \/ EtaView.interval s = None)) ->
             EtaView.issued (EtaView.run s es) = 0%nat
             /\ EtaView.view (EtaView.run s es) = EtaView.Loading).
  { induction es as [ | ev t IH]; intros s [H1 [H2 [H3 [H4 H5]]]].
    - split; [exact H1 | ]. cbn [EtaView.run fold_left].
      unfold EtaView.view. rewrite H4, H3. reflexivity.
    - cbn [forallb] in Hes. apply andb_true_iff in Hes.
      destruct Hes as [Hev Ht]. cbn [EtaView.run fold_left].
      apply (IH Ht).
      destruct ev as [id' | id' | | k o | ]; try discriminate Hev;
        cbn [EtaView.step].
      + destruct H5 as [H5 | H5]; rewrite H5.
        * unfold EtaView.fetchETA. rewrite Hid. cbn [negb].
          repeat split; try assumption. left. exact H5.
        * repeat split; try assumption. right. exact H5.
      + rewrite H2. cbn [mem_nat]. repeat split; assumption.
      + cbn. repeat split; try assumption. right. reflexivity. }
  apply Inv. cbn [EtaView.step]. unfold EtaView.effect, EtaView.fetchETA.
  rewrite Hid. cbn. repeat split. left. reflexivity.
Qed.

Lemma eta_without_bus_id_never_fetches_witness :
  EtaView.issued
    (EtaView.run (EtaView.step EtaView.initial (EtaView.Mount (String "")))
       [EtaView.Tick; EtaView.Tick; EtaView.Unmount; EtaView.Tick])
  = 0%nat.
Proof.
  apply (eta_without_bus_id_never_fetches (String "")
           [EtaView.Tick; EtaView.Tick; EtaView.Unmount; EtaView.Tick]);
    reflexivity.
Defined.



End PollersMore.

(** ** The loader of the plain map view *)

Section PlainLoader.

Lemma plain_find_found (routes : list value) (routeIdToShow : string) (r : value) :
  MapViewPlainLoad.find routes routeIdToShow = Ok r ->
  r = Undefined
  \/ (In r routes /\ strict_eq_string (get_opt r "id") routeIdToShow = true).
Proof.
  induction routes as [ | a t IH]; cbn [MapViewPlainLoad.find].
  - intros H. injection H as <-. left. reflexivity.
  - destruct (get a "id") as [id | ] eqn:Hid; cbn [bind]; [ | discriminate].
    destruct (strict_eq_string id routeIdToShow) eqn:E.
    + intros H. injection H as <-. right. split; [left; reflexivity | ].
      unfold get_opt. rewrite Hid. exact E.
    + intros H. destruct (IH H) as [-> | [Hin Hr]]; [left; reflexivity | ].
      right. split; [right; exact Hin | exact Hr].
Qed.

(** X21.  The plain variant never takes a polyline away: after a load,
    [routeCoords] is what it was, or it is the [coordinates] array of a
    route of the payload that carries the requested [id].  A failed
    request, a payload without that route, a route without an array of
    coordinates and a payload that makes the lookup throw all leave the
    previous polyline on the map. *)
Theorem plain_loader_never_clears
  (routeCoords : list value) (o : Fetch.outcome) (routeIdToShow : string) :
  MapViewPlainLoad.loadRoutes routeCoords o routeIdToShow = routeCoords
  \/ exists (items : list value) (r : value),
       Fetch.json o = Some (Array items)
       /\ In r items
       /\ strict_eq_string (get_opt r "id") routeIdToShow = true
       /\ get_opt r "coordinates"
          = Array (MapViewPlainLoad.loadRoutes routeCoords o routeIdToShow).
Proof.
  unfold MapViewPlainLoad.loadRoutes.
  destruct (Fetch.json o) as [routes | ]; [ | left; reflexivity].
  destruct routes as [ | | ? | ? | ? | items | ?]; try (left; reflexivity).
  cbn [MapViewPlainLoad.pick].
  destruct (MapViewPlainLoad.find items routeIdToShow) as [r | ] eqn:Hf;
    cbn [bind]; [ | left; reflexivity].
  destruct (truthy r) eqn:Hr; [ | left; reflexivity].
  destruct (get r "coordinates") as [c | ] eqn:Hc; cbn [bind];
    [ | left; reflexivity].
  destruct c as [ | | ? | ? | ? | coordinates | ?]; try (left; reflexivity).
  right. exists items, r.
  destruct (plain_find_found items routeIdToShow r Hf) as [-> | [Hin Hid]];
    [discriminate Hr | ].
  repeat split; try assumption. unfold get_opt. rewrite Hc. reflexivity.
Qed.

(** The sanitising variant recomputes its polyline and shows none for a
    route that is not there; the plain one keeps the old one. *)
Example plain_variant_keeps_stale_polyline :
  MapViewPlainLoad.loadRoutes revisiting
    (Fetch.Response 200 (Fetch.Json (Array [Object [("id", String "r1")]]))) "r2"
  = revisiting
  /\ (do r <- route (Array [Object [("id", String "r1")]]) "r2"; routeCoords r)
     = Ok [].
Proof. split; reflexivity. Qed.

End PlainLoader.

(** ** The route search *)

Section RouteSearch.

Import RoutesPage.




Lemma list_ascii_of_string_app (a b : string) :
  list_ascii_of_string (a ++ b)
  = (list_ascii_of_string a ++ list_ascii_of_string b)%list.
Proof.
  induction a as [ | c a IH]; cbn; [ | rewrite IH]; reflexivity.
Qed.











(** X24.  The search callback throws unless the route number is a string
    and either holds the query or comes with a route name that is a
    string too: a route without a name passes as long as its number
    matches, and makes the search throw once it does not. *)
Theorem search_callback_throws_iff (searchQuery : string) (r : value) :
  matches searchQuery r = TypeError
  <-> forall number : string,
        get_opt r "route_number" = String number ->
        includes (toLowerCase (list_ascii_of_string number))
                 (toLowerCase (list_ascii_of_string searchQuery)) = false
        /\ forall name : string, get_opt r "route_name" <> String name.
Proof.
  unfold matches, get_opt.
  destruct (get r "route_number") as [number | ] eqn:Hn; cbn [bind].
  - destruct number as [ | | ? | ? | num | ? | ?]; cbn [lowered bind];
      try (split; [intros _ n H; discriminate H | reflexivity]).
    destruct (includes (toLowerCase (list_ascii_of_string num))
                (toLowerCase (list_ascii_of_string searchQuery))) eqn:E.
    + split; [discriminate | ].
      intros H. destruct (H num eq_refl) as [H' _]. rewrite E in H'.
      discriminate H'.
    + assert (Hr : exists v, get r "route_name" = Ok v).
      { destruct r; try discriminate Hn; cbn [get]; try (eexists; reflexivity).
        destruct (own props "route_name"); eexists; reflexivity. }
      destruct Hr as [v Hv]. rewrite Hv. cbn [bind].
      destruct v as [ | | ? | ? | name | ? | ?]; cbn [lowered bind];
        try (split; [intros _ n H; injection H as <-;
                     split; [exact E | intros name H'; discriminate H']
                    | reflexivity]).
      split; [discriminate | ].
      intros H. destruct (H num eq_refl) as [_ H']. elim (H' name). reflexivity.
  - split; [intros _ n H; discriminate H | reflexivity].
Qed.

End RouteSearch.

(** ** The stops of the route form *)

Section Stops.

Import AdminRoutesPage.

Lemma splitFrom_commaFree (a : list ascii) :
  commaFree a = true ->
  forall cur l : list ascii,
    splitFrom cur (a ++ l) = splitFrom (rev a ++ cur) l.
Proof.
  induction a as [ | c a IH]; intros H cur l; [reflexivity | ].
  cbn [commaFree forallb] in H. apply andb_true_iff in H.
  destruct H as [Hc Ha]. apply negb_true_iff in Hc.
  cbn [app splitFrom]. rewrite Hc. rewrite (IH Ha).
  cbn [rev]. rewrite <- app_assoc. reflexivity.
Qed.

Lemma cleanStop_parts (s : string) :
  cleanStop s = true ->
  nonEmpty s = true
  /\ commaFree (list_ascii_of_string s) = true
  /\ Str.trim s = s.
Proof.
  unfold cleanStop. rewrite !andb_true_iff, String.eqb_eq. tauto.
Qed.

(** The pieces of a joined list of clean stops: the first as it is, the
    others behind the space that follows each comma. *)
Lemma splitFrom_join (stops : list string) :
  forallb cleanStop stops = true ->
  forall (s : string) (cur : list ascii),
    cleanStop s = true ->
    splitFrom cur (list_ascii_of_string (join (s :: stops)))
    = (rev cur ++ list_ascii_of_string s)%list
        :: map (fun x => " "%char :: list_ascii_of_string x) stops.
Proof.
  induction stops as [ | s' t IH]; intros H s cur Hs;
    destruct (cleanStop_parts s Hs) as [_ [Hc _]].
  - cbn [join map].
    rewrite <- (app_nil_r (list_ascii_of_string s)) at 1.
    rewrite (splitFrom_commaFree _ Hc). cbn [splitFrom].
    rewrite rev_app_distr, rev_involutive. reflexivity.
  - cbn [forallb] in H. apply andb_true_iff in H. destruct H as [Hs' Ht].
    change (join (s :: s' :: t)) with (s ++ ", " ++ join (s' :: t)).
    rewrite !list_ascii_of_string_app.
    rewrite (splitFrom_commaFree _ Hc).
    cbn [list_ascii_of_string app splitFrom].
    change (Str.is_char ","%char 44) with true.
    change (Str.is_char " "%char 44) with false. cbv iota.
    rewrite rev_app_distr, rev_involutive.
    rewrite (IH Ht s' [" "%char] Hs'). reflexivity.
Qed.

Lemma trim_after_space (x : string) :
  Str.trim (string_of_list_ascii (" "%char :: list_ascii_of_string x))
  = Str.trim x.
Proof.
  unfold Str.trim. rewrite list_ascii_of_string_of_list_ascii. reflexivity.
Qed.

Lemma filter_nonEmpty_clean (stops : list string) :
  forallb cleanStop stops = true -> filter nonEmpty stops = stops.
Proof.
  induction stops as [ | s t IH]; [reflexivity | ].
  cbn [forallb filter]. intros H. apply andb_true_iff in H.
  destruct H as [Hs Ht]. destruct (cleanStop_parts s Hs) as [Hn _].
  rewrite Hn, (IH Ht). reflexivity.
Qed.

Lemma join_then_submit (stops : list string) :
  forallb cleanStop stops = true ->
  submittedStops (join stops) = stops.
Proof.
  intros H. destruct stops as [ | s t]; [reflexivity | ].
  pose proof H as H'. cbn [forallb] in H'. apply andb_true_iff in H'.
  destruct H' as [Hs Ht].
  unfold submittedStops, split.
  rewrite (splitFrom_join t Ht s [] Hs). cbn [rev app map].
  rewrite string_of_list_ascii_of_string.
  destruct (cleanStop_parts s Hs) as [Hn [_ Htrim]]. rewrite Htrim.
  cbn [filter]. rewrite Hn. f_equal.
  rewrite !map_map.
  rewrite (map_ext_in _ (fun x => x)).
  - rewrite map_id. exact (filter_nonEmpty_clean t Ht).
  - intros x Hx. rewrite trim_after_space.
    rewrite forallb_forall in Ht.
    destruct (cleanStop_parts x (Ht x Hx)) as [_ [_ Hx']]. exact Hx'.
Qed.

Lemma splitFrom_pieces (l : list ascii) :
  forall cur : list ascii,
    commaFree cur = true ->
    Forall (fun piece => commaFree piece = true) (splitFrom cur l).
Proof.
  unfold commaFree at 1.
  induction l as [ | c t IH]; intros cur Hcur; cbn [splitFrom].
  - constructor; [ | constructor]. unfold commaFree.
    apply forallb_forall. intros x Hx. apply in_rev in Hx.
    rewrite forallb_forall in Hcur. exact (Hcur x Hx).
  - destruct (Str.is_char c 44) eqn:Hc.
    + constructor; [ | exact (IH [] eq_refl)]. unfold commaFree.
      apply forallb_forall. intros x Hx. apply in_rev in Hx.
      rewrite forallb_forall in Hcur. exact (Hcur x Hx).
    + apply IH. cbn [forallb]. rewrite Hc, Hcur. reflexivity.
Qed.

Lemma trimStart_In (l : list ascii) (c : ascii) :
  In c (Str.trimStart l) -> In c l.
Proof.
  induction l as [ | d t IH]; cbn [Str.trimStart]; [trivial | ].
  destruct (Str.is_ws d); [intros H; right; exact (IH H) | trivial].
Qed.

Lemma trim_commaFree (piece : list ascii) :
  commaFree piece = true ->
  commaFree (list_ascii_of_string (Str.trim (string_of_list_ascii piece))) = true.
Proof.
  unfold commaFree, Str.trim. rewrite !list_ascii_of_string_of_list_ascii.
  rewrite !forallb_forall. intros H c Hc. apply H.
  unfold Str.trimEnd in Hc. apply in_rev, trimStart_In, in_rev in Hc.
  exact (trimStart_In _ _ Hc).
Qed.

Lemma submitted_clean (stops : string) :
  forallb cleanStop (submittedStops stops) = true.
Proof.
  unfold submittedStops, split. apply forallb_forall. intros s Hs.
  apply filter_In in Hs. destruct Hs as [Hin Hne].
  apply in_map_iff in Hin. destruct Hin as [piece [<- Hin]].
  apply in_map_iff in Hin. destruct Hin as [l [<- Hin]].
  pose proof (splitFrom_pieces (list_ascii_of_string stops) [] eq_refl) as Hall.
  rewrite Forall_forall in Hall. specialize (Hall l Hin).
  unfold cleanStop. rewrite Hne, (trim_commaFree l Hall), trim_idempotent.
  rewrite String.eqb_refl. reflexivity.
Qed.

Lemma is_comma (c : ascii) : Str.is_char c 44 = true <-> c = ","%char.
Proof.
  unfold Str.is_char, Str.code. rewrite Z.eqb_eq. split.
  - intros H. rewrite <- (ascii_N_embedding c).
    replace (N_of_ascii c) with 44%N by lia. reflexivity.
  - intros ->. reflexivity.
Qed.

Lemma cleanStop_iff (s : string) :
  cleanStop s = true
  <-> s <> "" /\ ~ In ","%char (list_ascii_of_string s) /\ Str.trim s = s.
Proof.
  unfold cleanStop, nonEmpty, commaFree. cbn [truthy].
  rewrite !andb_true_iff, negb_true_iff, String.eqb_neq, String.eqb_eq,
    forallb_forall.
  split; intros [[H1 H2] H3] || intros [H1 [H2 H3]]; repeat split;
    try assumption.
  - intros Hin. specialize (H2 _ Hin). apply negb_true_iff in H2.
    assert (Str.is_char ","%char 44 = true) by reflexivity. congruence.
  - intros c Hc. apply negb_true_iff.
    destruct (Str.is_char c 44) eqn:E; [ | reflexivity].
    apply is_comma in E. subst c. contradiction.
Qed.

(** X25.  Opening a route in the form and saving it leaves its stops as
    they were: joining stop names with [", "] and splitting the text
    again gives back the same list, provided no name is empty, holds a
    comma, or starts or ends with white space. *)
Theorem stops_survive_edit_and_save (stops : list string) :
  Forall (fun s => s <> ""
                   /\ ~ In ","%char (list_ascii_of_string s)
                   /\ Str.trim s = s) stops ->
  submittedStops (join stops) = stops.
Proof.
  intros H. apply join_then_submit. apply forallb_forall.
  rewrite Forall_forall in H. intros s Hs. apply cleanStop_iff.
  exact (H s Hs).
Qed.

Lemma stops_survive_edit_and_save_witness :
  submittedStops (join ["Majestic"; "KR Market"; "Silk Board"])
  = ["Majestic"; "KR Market"; "Silk Board"].
Proof.
  apply (stops_survive_edit_and_save ["Majestic"; "KR Market"; "Silk Board"]).
  apply Forall_forall. intros s Hs. apply cleanStop_iff.
  destruct Hs as [<- | [<- | [<- | []]]]; reflexivity.
Defined.

(** X26.  Whatever is typed in the stops field, every stop sent with the
    form is a clean name: not empty, without a comma, without white space
    at either end. *)
Theorem submitted_stops_are_clean (stops : string) :
  Forall (fun s => s <> ""
                   /\ ~ In ","%char (list_ascii_of_string s)
                   /\ Str.trim s = s) (submittedStops stops).
Proof.
  apply Forall_forall. intros s Hs. apply cleanStop_iff.
  pose proof (submitted_clean stops) as H. rewrite forallb_forall in H.
  exact (H s Hs).
Qed.

(** X27.  Saving is stable: the stops sent with the form, shown again in
    the form and sent once more, are the same stops. *)
Theorem submitting_twice_changes_nothing (stops : string) :
  submittedStops (join (submittedStops stops)) = submittedStops stops.
Proof.
  apply join_then_submit. apply submitted_clean.
Qed.

Example submittedStops_of_untidy_text :
  submittedStops " Majestic ,, KR Market,  ,Silk Board, "
  = ["Majestic"; "KR Market"; "Silk Board"].
Proof. vm_compute. reflexivity. Qed.

End Stops.
